(** * Asakusa line timetable converters: HTML timetable to NextTrain text

  A shallow embedding of the three converter scripts of the repository:

  - [Keisei]       timetable_converter.py (Oshiage / Keisei direction);
  - [Nishimagome]  timetable_converter_nishimagome_html (main line and
                   branch, regular-expression based);
  - [Oshiage]      timetable_converter of the Nishimagome branch towards
                   Oshiage.

  Python values are modelled as follows.  A [str] is a [string] holding
  the UTF-8 bytes of the text: equality, substring tests, splitting on a
  separator and lexicographic comparison agree on code points and on
  their UTF-8 encoding.  A [dict] is an association list in insertion
  order ([Py.dict]).  A BeautifulSoup parse tree is the inductive type
  [Bs4.PageElement]; the HTML parser itself and the [re] engine are
  libraries outside the repository and are represented by the trees,
  respectively the match results, they hand to the scripts. *)

From Stdlib Require Import String Ascii List ZArith NArith Bool Lia.
From Stdlib Require Import Permutation Sorted.
Import ListNotations.
Set Warnings "-register-all".
Open Scope string_scope.
Open Scope list_scope.

(* ================================================================= *)
(** ** Exceptions *)

Inductive exn : Type :=
| AttributeError
| ValueError.

Inductive result (A : Type) : Type :=
| Ok (a : A)
| Raise (e : exn).
Arguments Ok {A} a.
Arguments Raise {A} e.

Definition bind {A B} (r : result A) (k : A -> result B) : result B :=
  match r with
  | Ok a => k a
  | Raise e => Raise e
  end.

Notation "x <- r ;; k" := (bind r (fun x => k))
  (at level 61, r at next level, right associativity).

(* ================================================================= *)
(** ** Python built-ins used by the scripts *)

Module Py.

(** [x in xs] for a list of strings. *)
Definition in_list (x : string) (xs : list string) : bool :=
  existsb (String.eqb x) xs.

(** [sub in s] for two strings: substring test. *)
Fixpoint str_in (sub s : string) : bool :=
  if prefix sub s then true
  else match s with
       | EmptyString => false
       | String _ s' => str_in sub s'
       end.

(** [s.split(sep)[0]]: the text before the first occurrence of [sep]
    (the whole of [s] when [sep] does not occur).  [sep] is a non-empty
    constant at every call site. *)
Fixpoint split_first (sep s : string) : string :=
  if prefix sep s then EmptyString
  else match s with
       | EmptyString => EmptyString
       | String c s' => String c (split_first sep s')
       end.

(** [str.strip()].  The characters removed are those of [str.isspace]:
    U+0009-000D, U+001C-0020, U+0085, U+00A0, U+1680, U+2000-200A, U+2028,
    U+2029, U+202F, U+205F and U+3000, here by their UTF-8 encodings of
    one, two and three bytes. *)
Definition isspace1 (a : ascii) : bool :=
  let x := N_of_ascii a in
  (((9 <=? x) && (x <=? 13)) || ((28 <=? x) && (x <=? 32)))%N.

Definition isspace2 (a b : ascii) : bool :=
  let x := N_of_ascii a in
  let y := N_of_ascii b in
  ((x =? 194) && ((y =? 133) || (y =? 160)))%N.

Definition isspace3 (a b c : ascii) : bool :=
  let x := N_of_ascii a in
  let y := N_of_ascii b in
  let z := N_of_ascii c in
  (((x =? 225) && (y =? 154) && (z =? 128))
   || ((x =? 226) && (y =? 128)
       && (((128 <=? z) && (z <=? 138)) || (z =? 168) || (z =? 169)
           || (z =? 175)))
   || ((x =? 226) && (y =? 129) && (z =? 159))
   || ((x =? 227) && (y =? 128) && (z =? 128)))%N.

(** Leading characters accepted by the three tests are dropped. *)
Section Strip.
Variable w1 : ascii -> bool.
Variable w2 : ascii -> ascii -> bool.
Variable w3 : ascii -> ascii -> ascii -> bool.

Fixpoint drop_leading (s : string) : string :=
  match s with
  | EmptyString => EmptyString
  | String a s1 =>
      if w1 a then drop_leading s1
      else
        match s1 with
        | EmptyString => s
        | String b s2 =>
            if w2 a b then drop_leading s2
            else
              match s2 with
              | EmptyString => s
              | String c s3 => if w3 a b c then drop_leading s3 else s
              end
        end
  end.
End Strip.

Definition reversed (s : string) : string :=
  string_of_list_ascii (rev (list_ascii_of_string s)).

Definition lstrip (s : string) : string :=
  drop_leading isspace1 isspace2 isspace3 s.

(** Trailing whitespace is leading whitespace of the reversed text, its
    bytes read backwards. *)
Definition rstrip (s : string) : string :=
  reversed (drop_leading isspace1 (fun b a => isspace2 a b)
                         (fun c b a => isspace3 a b c) (reversed s)).

Definition strip (s : string) : string := rstrip (lstrip s).

(** The code points of a text, from its UTF-8 bytes.  (A byte sequence
    that is not UTF-8 is not the encoding of a [str]; its bytes are then
    read as far as they go.) *)
Fixpoint code_points (s : string) : list N :=
  match s with
  | EmptyString => []
  | String a s1 =>
      let x := N_of_ascii a in
      if (x <? 192)%N then x :: code_points s1
      else
        match s1 with
        | EmptyString => [x]
        | String b s2 =>
            let y := (N_of_ascii b - 128)%N in
            if (x <? 224)%N then ((x - 192) * 64 + y)%N :: code_points s2
            else
              match s2 with
              | EmptyString => [x]
              | String c s3 =>
                  let z := (N_of_ascii c - 128)%N in
                  if (x <? 240)%N
                  then ((x - 224) * 4096 + y * 64 + z)%N :: code_points s3
                  else
                    match s3 with
                    | EmptyString => [x]
                    | String d s4 =>
                        ((x - 240) * 262144 + y * 4096 + z * 64
                         + (N_of_ascii d - 128))%N :: code_points s4
                    end
              end
        end
  end.

(** The Unicode character database (version 14.0.0, that of CPython
    3.11) as far as digits go.  [decimal_ranges]: the runs of decimal
    digits (category Nd), each as its first code point and its length; a
    run holds the digits 0 to 9 in order, once or several times.
    [other_digit_ranges]: the characters that are digits without being
    decimal (superscripts, subscripts, circled digits and the like). *)
Definition decimal_ranges : list (N * N) :=
  [(48, 10); (1632, 10); (1776, 10); (1984, 10); (2406, 10); (2534, 10);
   (2662, 10); (2790, 10); (2918, 10); (3046, 10); (3174, 10); (3302, 10);
   (3430, 10); (3558, 10); (3664, 10); (3792, 10); (3872, 10); (4160, 10);
   (4240, 10); (6112, 10); (6160, 10); (6470, 10); (6608, 10); (6784, 10);
   (6800, 10); (6992, 10); (7088, 10); (7232, 10); (7248, 10); (42528, 10);
   (43216, 10); (43264, 10); (43472, 10); (43504, 10); (43600, 10);
   (44016, 10); (65296, 10); (66720, 10); (68912, 10); (69734, 10);
   (69872, 10); (69942, 10); (70096, 10); (70384, 10); (70736, 10);
   (70864, 10); (71248, 10); (71360, 10); (71472, 10); (71904, 10);
   (72016, 10); (72784, 10); (73040, 10); (73120, 10); (92768, 10);
   (92864, 10); (93008, 10); (120782, 50); (123200, 10); (123632, 10);
   (125264, 10); (130032, 10) ]%N.

Definition other_digit_ranges : list (N * N) :=
  [(178, 2); (185, 1); (4969, 9); (6618, 1); (8304, 1); (8308, 6);
   (8320, 10); (9312, 9); (9332, 9); (9352, 9); (9450, 1); (9461, 9);
   (9471, 1); (10102, 9); (10112, 9); (10122, 9); (68160, 4); (69216, 9);
   (69714, 9); (127232, 11) ]%N.

Fixpoint range_start (cp : N) (ranges : list (N * N)) : option N :=
  match ranges with
  | [] => None
  | (start, len) :: ranges' =>
      if ((start <=? cp) && (cp <? start + len))%N then Some start
      else range_start cp ranges'
  end.

(** The value of a decimal digit. *)
Definition decimal_value (cp : N) : option Z :=
  match range_start cp decimal_ranges with
  | Some start => Some (Z.of_N ((cp - start) mod 10))
  | None => None
  end.

Definition is_digit_point (cp : N) : bool :=
  match range_start cp decimal_ranges,
        range_start cp other_digit_ranges with
  | None, None => false
  | _, _ => true
  end.

(** [str.isdigit()]: at least one character, and every character a
    digit, decimal or not. *)
Definition isdigit (s : string) : bool :=
  match code_points s with
  | [] => false
  | cps => forallb is_digit_point cps
  end.

Fixpoint decimal_values (cps : list N) : option (list Z) :=
  match cps with
  | [] => Some []
  | cp :: cps' =>
      match decimal_value cp, decimal_values cps' with
      | Some d, Some ds => Some (d :: ds)
      | _, _ => None
      end
  end.

(** The default of [sys.set_int_max_str_digits]. *)
Definition int_max_str_digits : nat := 4300.

(** [int(s)] for a text made of digits, the only use in the scripts
    (every call follows a successful [isdigit]): the decimal value when
    every character is a decimal digit and there are at most
    [int_max_str_digits] of them, [ValueError] otherwise.  Signs,
    underscores and surrounding whitespace, which [int] also reads, do
    not occur in such a text and are not modelled. *)
Definition int (s : string) : result Z :=
  match code_points s with
  | [] => Raise ValueError
  | cps =>
      match decimal_values cps with
      | Some ds =>
          if (int_max_str_digits <? length ds)%nat then Raise ValueError
          else Ok (fold_left (fun acc d => (10 * acc + d)%Z) ds 0%Z)
      | None => Raise ValueError
      end
  end.

(** [sep.join(xs)]. *)
Definition join (sep : string) (xs : list string) : string :=
  String.concat sep xs.

(** [sorted(xs, key=...)]: a stable sort.  [le x y] is the comparison of
    the keys; an element is placed before the first element of the
    already sorted remainder that is not smaller, so equal keys keep
    their input order. *)
Section Sorted.
Context {A : Type} (le : A -> A -> bool).

Fixpoint insert (x : A) (l : list A) : list A :=
  match l with
  | [] => [x]
  | y :: l' => if le x y then x :: l else y :: insert x l'
  end.

Definition sorted (l : list A) : list A := fold_right insert [] l.
End Sorted.

(** Sorting strings ([sorted(d.keys())]) and sorting by an integer key
    that is known for every element. *)
Definition sorted_str : list string -> list string := sorted String.leb.

Definition sorted_key (key : string -> Z) : list string -> list string :=
  sorted (fun x y => (key x <=? key y)%Z).

(** [sorted(xs, key=f)] for a key function that may raise: the key of
    every element is computed first, in order, and an exception of [f]
    ends the call; the elements are then sorted by their keys. *)
Fixpoint decorate (key : string -> result Z) (xs : list string)
  : result (list (Z * string)) :=
  match xs with
  | [] => Ok []
  | x :: xs' =>
      k <- key x ;;
      rest <- decorate key xs' ;;
      Ok ((k, x) :: rest)
  end.

Definition sorted_by_key (key : string -> result Z) (xs : list string)
  : result (list string) :=
  decorated <- decorate key xs ;;
  Ok (map snd (sorted (fun a b : Z * string => (fst a <=? fst b)%Z)
                      decorated)).

(** A [dict] with string keys, in insertion order. *)
Definition dict (V : Type) : Type := list (string * V).

Fixpoint dict_get {V} (d : dict V) (k : string) : option V :=
  match d with
  | [] => None
  | (k', v) :: d' => if String.eqb k k' then Some v else dict_get d' k
  end.

(** [d[k] = v]: an existing key keeps its position, a new key goes
    last. *)
Fixpoint dict_set {V} (k : string) (v : V) (d : dict V) : dict V :=
  match d with
  | [] => [(k, v)]
  | (k', v') :: d' =>
      if String.eqb k k' then (k', v) :: d' else (k', v') :: dict_set k v d'
  end.

Definition dict_keys {V} (d : dict V) : list string := map fst d.
Definition dict_values {V} (d : dict V) : list V := map snd d.

(** [k in d]. *)
Definition dict_mem {V} (d : dict V) (k : string) : bool :=
  match dict_get d k with Some _ => true | None => false end.

(** [s.endswith(suffix)]. *)
Definition endswith (s suffix : string) : bool :=
  let n := String.length s in
  let m := String.length suffix in
  (m <=? n)%nat && String.eqb (substring (n - m) m s) suffix.

(** [s[-1]] ([None] on the empty string, where Python raises; every use
    is guarded by a test that [s] is not empty) and [s[:-1]]. *)
Fixpoint last_char (s : string) : option ascii :=
  match s with
  | EmptyString => None
  | String c EmptyString => Some c
  | String _ s' => last_char s'
  end.

Fixpoint drop_last (s : string) : string :=
  match s with
  | EmptyString => EmptyString
  | String _ EmptyString => EmptyString
  | String c s' => String c (drop_last s')
  end.

(** [s and s[-1] in cs], for one-character strings [cs]. *)
Definition last_char_in (s : string) (cs : list ascii) : bool :=
  match last_char s with
  | Some c => existsb (Ascii.eqb c) cs
  | None => false
  end.

End Py.

(* ================================================================= *)
(** ** BeautifulSoup parse trees and the queries the scripts make *)

Module Bs4.

(** A node of the parse tree: a text node or a tag with its name, the
    tokens of its [class] attribute (empty when it has none) and its
    children. *)
Inductive PageElement : Type :=
| NavigableString (s : string)
| Tag (name : string) (class_ : list string) (contents : list PageElement).

(** [tag.get('class', [])]. *)
Definition get_class (e : PageElement) : list string :=
  match e with
  | NavigableString _ => []
  | Tag _ cls _ => cls
  end.

(** [tag.text]: the text nodes below the tag, concatenated. *)
Fixpoint text (e : PageElement) : string :=
  match e with
  | NavigableString s => s
  | Tag _ _ cs => String.concat "" (map text cs)
  end.

(** All nodes strictly below [e], in document order. *)
Fixpoint descendants (e : PageElement) : list PageElement :=
  match e with
  | NavigableString _ => []
  | Tag _ _ cs => flat_map (fun c => c :: descendants c) cs
  end.

(** A [class_=c] filter accepts a tag when one of its class tokens is
    [c] or when its whole class attribute is [c]. *)
Definition class_matches (c : string) (cls : list string) : bool :=
  Py.in_list c cls || String.eqb (Py.join " " cls) c.

Definition matches (name : string) (class_ : option string)
           (e : PageElement) : bool :=
  match e with
  | NavigableString _ => false
  | Tag n cls _ =>
      String.eqb n name &&
      match class_ with
      | None => true
      | Some c => class_matches c cls
      end
  end.

(** [e.find_all(name, class_=...)] and [e.find(name, class_=...)]. *)
Definition find_all (name : string) (class_ : option string)
           (e : PageElement) : list PageElement :=
  filter (matches name class_) (descendants e).

Definition find (name : string) (class_ : option string)
           (e : PageElement) : option PageElement :=
  hd_error (find_all name class_ e).

End Bs4.

(* ================================================================= *)
(** ** Reading the text of a missing element *)

(** [o.text] where [o] is the result of a [find]: an [AttributeError] on
  [None]. *)
Definition text_of (o : option Bs4.PageElement) : result string :=
match o with
| None => Raise AttributeError
| Some e => Ok (Bs4.text e)
end.

(* ================================================================= *)
(** ** Data shared by the three scripts *)

(** The [info] dictionary of [extract_station_info]. *)
Record station_info : Type := mk_station {
name : string;
direction : string;
day_type : string
}.

(** One entry of an hour's list: the dictionary with keys [minute],
  [train_type], [destination] and [legends]. *)
Record trip : Type := mk_trip {
minute : string;
train_type : string;
destination : string;
legends : list string
}.

Definition timetable_t : Type := Py.dict (list trip).

(** The dictionary returned by [extract_legends]. *)
Record legend_bundle : Type := mk_legends {
train_types : list string;
destinations : list string;
connections : list string
}.

(** The dictionary returned by [parse_html]. *)
Record parsed_data : Type := mk_parsed {
station : station_info;
timetable : timetable_t;
legend_info : legend_bundle
}.

(* ================================================================= *)
(** ** [convert_to_nexttrain]

    The method is the same text in the three scripts, up to the code
    tables of the instance and the sort key of the hours, which are the
    parameters of this section.  [lines] is the list the method appends
    to. *)

Definition newline : string := String (ascii_of_nat 10) EmptyString.

Section NextTrain.

Variable destination_definitions : Py.dict (string * string).
Variable train_type_definitions : Py.dict (string * string * string).
Variable sort_hour : string -> result Z.

Definition emit_destination (lines : list string) (code : string)
  : list string :=
  match Py.dict_get destination_definitions code with
  | Some (name, abbr) => lines ++ [(code ++ ":" ++ name ++ ";" ++ abbr)%string]
  | None => lines
  end.

Definition emit_train_type (lines : list string) (code : string)
  : list string :=
  match Py.dict_get train_type_definitions code with
  | Some (name, abbr, color) =>
      lines ++ [(code ++ ":" ++ name ++ ";" ++ abbr ++ ";" ++ color)%string]
  | None => lines
  end.

(** [f"{train_type}{destination}{minute}"]. *)
Definition entry (time_data : trip) : string :=
  (train_type time_data ++ destination time_data ++ minute time_data)%string.

Definition emit_entry (time_entries : list string) (time_data : trip)
  : list string :=
  time_entries ++ [entry time_data].

Definition emit_hour (timetable : timetable_t) (lines : list string)
           (hour : string) : list string :=
  match Py.dict_get timetable hour with
  | None => lines
  | Some [] => lines
  | Some times =>
      let time_entries := fold_left emit_entry times [] in
      lines ++ [(hour ++ ": " ++ Py.join " " time_entries)%string]
  end.

Definition day_header (station : station_info) : string :=
  if String.eqb (day_type station) "weekday"
  then "[MON][TUE][WED][THU][FRI]"
  else "[SAT][SUN][HOL]".

Definition day_type_text (station : station_info) : string :=
  if String.eqb (day_type station) "weekday" then "平日" else "土休日".

Definition title_direction (direction : string) : string :=
  if Py.str_in "・" direction
  then (Py.split_first "・" direction ++ "方面")%string
  else direction.

Definition title (station : station_info) : string :=
  ("# " ++ name station ++ "駅 " ++ title_direction (direction station)
        ++ "(" ++ day_type_text station ++ ")")%string.

Definition emit_timetable (lines : list string) (parsed : parsed_data)
  : result (list string) :=
  let station := station parsed in
  let timetable := timetable parsed in
  let lines := lines ++ [""] in
  let lines := lines ++ [day_header station] in
  let lines := lines ++ [title station] in
  hours <- Py.sorted_by_key sort_hour (Py.dict_keys timetable) ;;
  Ok (fold_left (emit_hour timetable) hours lines).

(** The loop over [parsed_data_list]; an exception of the sort ends
    it. *)
Definition emit_timetables (acc : result (list string))
           (parsed : parsed_data) : result (list string) :=
  lines <- acc ;;
  emit_timetable lines parsed.

Definition convert_to_nexttrain_lines (parsed_data_list : list parsed_data)
  : result (list string) :=
  let lines :=
    fold_left emit_destination
              (Py.sorted_str (Py.dict_keys destination_definitions)) [] in
  let lines :=
    fold_left emit_train_type
              (Py.sorted_str (Py.dict_keys train_type_definitions)) lines in
  fold_left emit_timetables parsed_data_list (Ok lines).

Definition convert_to_nexttrain (parsed_data_list : list parsed_data)
  : result string :=
  lines <- convert_to_nexttrain_lines parsed_data_list ;;
  Ok (Py.join newline lines).

End NextTrain.

(** [print_analysis], the same text in the three scripts, as far as it
    can fail: before it prints the first hours it sorts every hour label
    with the key [int(x) if x.isdigit() else 0].  The text printed is
    left out. *)
Definition analysis_key (x : string) : result Z :=
  if Py.isdigit x then Py.int x else Ok 0%Z.

Definition print_analysis (parsed : parsed_data) : result unit :=
  _ <- Py.sorted_by_key analysis_key (Py.dict_keys (timetable parsed)) ;;
  Ok tt.

(* ================================================================= *)
(** ** timetable_converter.py: Oshiage / Keisei direction *)

Module Keisei.

(** Code tables of [TimetableConverter.__init__]. *)
Definition train_type_definitions : Py.dict (string * string * string) :=
  [ ("k", ("アクセス特急", "ア", "#EE7A00"));
    ("l", ("エアポート快特", "エ", "#EE7A00"));
    ("m", ("エアポート快特−成田スカイアクセス線経由", "快", "#EE7A00"));
    ("n", ("通勤特急", "通", "#0033FF"));
    ("o", ("普通", "普", "#000000"));
    ("p", ("快速", "快", "#FC82FC"));
    ("q", ("特急", "特", "#FF0033"));
    ("r", ("快特", "快", "#009966")) ].

Definition destination_definitions : Py.dict (string * string) :=
  [ ("a", ("印旛日本医大", "印"));
    ("b", ("芝山千代田", "芝"));
    ("c", ("印西牧の原", "牧"));
    ("d", ("押上", "押"));
    ("e", ("京成高砂", "高"));
    ("f", ("京成佐倉", "佐"));
    ("g", ("京成成田", "成"));
    ("h", ("宗吾参道", "宗"));
    ("i", ("成田空港", "空"));
    ("j", ("青砥", "青")) ].

Definition destination_map : Py.dict string :=
  [ ("印旛日本医大", "a"); ("医", "a");
    ("芝山千代田", "b"); ("芝", "b");
    ("印西牧の原", "c"); ("印", "c");
    ("押上", "d"); ("押", "d");
    ("京成高砂", "e"); ("高", "e");
    ("京成佐倉", "f"); ("佐", "f");
    ("京成成田", "g"); ("成", "g");
    ("宗吾参道", "h"); ("宗", "h");
    ("成田空港", "i"); ("空", "i");
    ("青砥", "j"); ("青", "j");
    ("泉岳寺", "j");
    ("●", "j") ].

(** The default destination and train type of a block. *)
Definition default_destination : string := "j".
Definition default_train_type : string := "o".

Definition train_type_symbols : list string :=
  ["ア"; "速"; "通"; "特"; "快"; "エ"].

(** The [legends] list of a block: the stripped, non-empty texts of the
    spans below its [wrapLegend] division, in document order. *)
Definition nonempty (s : string) : bool :=
  match s with EmptyString => false | _ => true end.

Definition get_legends (wrap_time : Bs4.PageElement) : list string :=
  match Bs4.find "div" (Some "wrapLegend") wrap_time with
  | None => []
  | Some legend_elem =>
      filter nonempty
        (map (fun span => Py.strip (Bs4.text span))
             (Bs4.find_all "span" None legend_elem))
  end.

(** The loop over [legends] that looks for the destination: a type symbol
    is skipped ([continue]), the first key of [destination_map] ends the
    loop ([break]). *)
Fixpoint scan_destination (legends : list string) (destination : string)
  : string :=
  match legends with
  | [] => destination
  | legend :: rest =>
      if Py.in_list legend train_type_symbols then
        scan_destination rest destination
      else
        match Py.dict_get destination_map legend with
        | Some d => d
        | None => scan_destination rest destination
        end
  end.

(** The train type, from the legends, the class tokens and the
    destination found before. *)
Definition resolve_train_type (legends classes : list string)
           (destination : string) : string :=
  if Py.in_list "エ" legends then
    if Py.in_list "color-orange" classes && String.eqb destination "i"
    then "m"
    else "l"
  else if Py.in_list "color-pink" classes then "p"
  else if Py.in_list "color-red" classes then "q"
  else if Py.in_list "color-orange" classes then "k"
  else if Py.in_list "color-green" classes then "r"
  else if Py.in_list "color-blue" classes then "n"
  else default_train_type.

(** The destination and the train type the loop body computes for one
    [wrapTime] block. *)
Definition block_destination (wrap_time : Bs4.PageElement) : string :=
  scan_destination (get_legends wrap_time) default_destination.

Definition block_train_type (wrap_time : Bs4.PageElement) : string :=
  resolve_train_type (get_legends wrap_time) (Bs4.get_class wrap_time)
                     (block_destination wrap_time).

(** The body of the loop over the blocks of a cell: [Some] is the
    dictionary appended to [times], [None] stands for a block that
    appends nothing (no time element, or the [continue] on the
    placeholder). *)
Definition block_trip (wrap_time : Bs4.PageElement) : option trip :=
  match Bs4.find "span" (Some "time") wrap_time with
  | None => None
  | Some time_elem =>
      let minute := Py.strip (Bs4.text time_elem) in
      if String.eqb minute "－" then None
      else Some (mk_trip minute (block_train_type wrap_time)
                         (block_destination wrap_time)
                         (get_legends wrap_time))
  end.

Definition append_block (times : list trip) (wrap_time : Bs4.PageElement)
  : list trip :=
  match block_trip wrap_time with
  | Some t => times ++ [t]
  | None => times
  end.

Definition cell_times (time_cell : Bs4.PageElement) : list trip :=
  fold_left append_block
            (Bs4.find_all "div" (Some "wrapTime") time_cell) [].

(** The body of the loop over the rows of the table. *)
Definition process_row (timetable : timetable_t) (row : Bs4.PageElement)
  : timetable_t :=
  match Bs4.find "th" None row with
  | None => timetable
  | Some hour_elem =>
      let hour := Py.strip (Bs4.text hour_elem) in
      match Bs4.find "td" None row with
      | None => timetable
      | Some time_cell =>
          match cell_times time_cell with
          | [] => timetable
          | times => Py.dict_set hour times timetable
          end
      end
  end.

Definition extract_timetable (soup : Bs4.PageElement) : timetable_t :=
  match Bs4.find "table" (Some "tt-table") soup with
  | None => []
  | Some table =>
      match Bs4.find "tbody" None table with
      | None => []
      | Some tbody =>
          fold_left process_row (Bs4.find_all "tr" None tbody) []
      end
  end.

(** [extract_station_info].  The anchor below an active tab is looked up
    with [find('a')] and its [text] is read at once, so a missing anchor
    raises [AttributeError]. *)
Definition classify_day (day_text : string) : string :=
  if Py.str_in "平日" day_text then "weekday"
  else if Py.str_in "土曜" day_text || Py.str_in "休日" day_text
       then "holiday"
       else "".

Definition extract_station_info (soup : Bs4.PageElement)
  : result station_info :=
  let name :=
    match Bs4.find "h1" (Some "station-name") soup with
    | Some station_name_elem => Py.strip (Bs4.text station_name_elem)
    | None => ""
    end in
  direction <-
    match Bs4.find "li" (Some "directionNavi__item is-active") soup with
    | Some direction_elem =>
        t <- text_of (Bs4.find "a" None direction_elem) ;; Ok (Py.strip t)
    | None => Ok ""
    end ;;
  day_type <-
    match Bs4.find "li" (Some "dayNavi__item is-active") soup with
    | Some day_elem =>
        t <- text_of (Bs4.find "a" None day_elem) ;;
        Ok (classify_day (Py.strip t))
    | None => Ok ""
    end ;;
  Ok (mk_station name direction day_type).

(** [extract_legends]. *)
Definition add_legend (head_text : string) (legends : legend_bundle)
           (item : Bs4.PageElement) : legend_bundle :=
  let text := Py.strip (Bs4.text item) in
  if Py.str_in "種別" head_text then
    mk_legends (train_types legends ++ [text]) (destinations legends)
               (connections legends)
  else if Py.str_in "行先" head_text then
    mk_legends (train_types legends) (destinations legends ++ [text])
               (connections legends)
  else if Py.str_in "接続" head_text then
    mk_legends (train_types legends) (destinations legends)
               (connections legends ++ [text])
  else legends.

Definition process_section (legends : legend_bundle)
           (section : Bs4.PageElement) : legend_bundle :=
  match Bs4.find "dt" (Some "time-legend__head") section with
  | None => legends
  | Some head =>
      fold_left (add_legend (Py.strip (Bs4.text head)))
                (Bs4.find_all "li" None section) legends
  end.

Definition extract_legends (soup : Bs4.PageElement) : legend_bundle :=
  fold_left process_section
            (Bs4.find_all "dl" (Some "time-legend") soup)
            (mk_legends [] [] []).

(** [parse_html], from the tree BeautifulSoup builds: the three
    extractions in the order of the source. *)
Definition parse_html (soup : Bs4.PageElement) : result parsed_data :=
  station_info <- extract_station_info soup ;;
  let timetable := extract_timetable soup in
  let legends := extract_legends soup in
  Ok (mk_parsed station_info timetable legends).

(** The sort key of the hours in [convert_to_nexttrain]. *)
Definition sort_hour (hour_str : string) : result Z :=
  if negb (Py.isdigit hour_str) then Ok 0%Z
  else
    hour <- Py.int hour_str ;;
    if (hour <=? 1)%Z then Ok (hour + 24)%Z else Ok hour.

Definition convert_to_nexttrain : list parsed_data -> result string :=
  convert_to_nexttrain destination_definitions train_type_definitions
                       sort_hour.

(** The loop of [main] over the pages read, and the conversion after
    it: every page is parsed, appended to [parsed_data_list] and
    analysed; the list is then converted.  No exception is caught, so
    one of [parse_html], [print_analysis] or [convert_to_nexttrain] ends
    the run.  Reading and writing the files and the text printed are
    left out. *)
Definition parse_step (acc : result (list parsed_data))
           (soup : Bs4.PageElement) : result (list parsed_data) :=
  parsed_data_list <- acc ;;
  parsed_data <- parse_html soup ;;
  _ <- print_analysis parsed_data ;;
  Ok (parsed_data_list ++ [parsed_data]).

Definition convert_pages (soups : list Bs4.PageElement) : result string :=
  parsed_data_list <- fold_left parse_step soups (Ok []) ;;
  convert_to_nexttrain parsed_data_list.

(** What [main] decides from its arguments ([sys.argv[1:]]): the usage
    text and exit 1; the analysis of one page; the error message and
    exit 1 ([MissingHtmlFile]); or the conversion of [html_files], written
    to [output_file] or, without one, printed. *)
Inductive action : Type :=
| ShowUsage
| MissingHtmlFile
| Analyze (html_file : string)
| Convert (html_files : list string) (output_file : option string).

Definition main (args : list string) : action :=
  match args with
  | [] => ShowUsage
  | first :: rest =>
      if String.eqb first "--analyze" then
        match rest with
        | [] => MissingHtmlFile
        | html_file :: _ => Analyze html_file
        end
      else
        let '(html_files, output_file) :=
          if Py.endswith (last args "") ".html"
          then (args, None)
          else (removelast args, Some (last args "")) in
        match html_files with
        | [] => MissingHtmlFile
        | _ => Convert html_files output_file
        end
  end.

End Keisei.

(* ================================================================= *)
(** ** timetable_converter_nishimagome_html: Nishimagome direction

    This script reads the page with regular expressions.  The results of
    the searches are the parameters of the section below; each stands for
    the [re] call named in its comment. *)

Module Nishimagome.

Definition train_type_definitions : Py.dict (string * string * string) :=
  [ ("m", ("快特", "快", "#009966"));
    ("n", ("急行", "急", "#0033FF"));
    ("o", ("普通", "普", "#000000"));
    ("p", ("特急", "特", "#FF0033"));
    ("q", ("エアポート快特", "エ", "#EE7A00")) ].

Definition destination_definitions : Py.dict (string * string) :=
  [ ("a", ("羽田空港", "羽"));
    ("b", ("京急久里浜", "ク"));
    ("c", ("三浦海岸", "海"));
    ("d", ("三崎口", "三"));
    ("e", ("神奈川新町", "神"));
    ("f", ("西馬込'", "馬'"));
    ("g", ("西馬込''", "馬''"));
    ("h", ("泉岳寺", "泉"));
    ("i", ("浅草橋", "草"));
    ("j", ("品川", "品"));
    ("k", ("金沢文庫", "文"));
    ("l", ("逗子・葉山", "逗")) ].

Definition destination_map : Py.dict string :=
  [ ("羽田空港", "a"); ("羽", "a");
    ("京急久里浜", "b"); ("久", "b"); ("ク", "b");
    ("三浦海岸", "c"); ("海", "c");
    ("三崎口", "d"); ("三", "d");
    ("神奈川新町", "e"); ("神", "e"); ("新", "e");
    ("泉岳寺", "h"); ("泉", "h");
    ("浅草橋", "i"); ("草", "i"); ("浅", "i");
    ("品川", "j"); ("品", "j");
    ("金沢文庫", "k"); ("文", "k");
    ("逗子・葉山", "l"); ("逗", "l");
    ("①", "f");
    ("②", "g") ].

Definition default_destination : string := "f".
Definition default_train_type : string := "o".

Definition train_type_symbols : list string := ["快"; "急"; "特"; "エ"].

(** The loop over [legends]: it sets [platform] on a track glyph and
    [destination] on a key of [destination_map], and runs to the end of
    the list.  The state is the pair [(destination, platform)], both
    [None] at the start. *)
Fixpoint scan_legends (legends : list string)
         (destination platform : option string)
  : option string * option string :=
  match legends with
  | [] => (destination, platform)
  | legend :: rest =>
      if Py.in_list legend train_type_symbols then
        scan_legends rest destination platform
      else if String.eqb legend "①" then
        scan_legends rest destination (Some "f")
      else if String.eqb legend "②" then
        scan_legends rest destination (Some "g")
      else
        match Py.dict_get destination_map legend with
        | Some d => scan_legends rest (Some d) platform
        | None => scan_legends rest destination platform
        end
  end.

(** The train type; [color_class] is the text of the [class] attribute
    and the colour tests are substring tests. *)
Definition resolve_train_type (legends : list string)
           (color_class : string) : string :=
  if Py.in_list "エ" legends then "q"
  else if Py.str_in "color-green" color_class then "m"
  else if Py.str_in "color-blue" color_class then "n"
  else if Py.str_in "color-red" color_class then "p"
  else if Py.str_in "color-orange" color_class then "q"
  else default_train_type.

(** The destination after the loop: the destination found, else the
    platform code, else track 1. *)
Definition resolve_destination (legends : list string) : string :=
  match scan_legends legends None None with
  | (Some destination, _) => destination
  | (None, Some platform) => platform
  | (None, None) => default_destination
  end.

Section Extraction.

(** [re.search(r'<tbody>(.*?)</tbody>', html, re.DOTALL)], group 1. *)
Variable re_tbody : string -> option string.
(** [re.findall] of the row pattern on the table body: the pairs
    [(hour, trains_html)]. *)
Variable re_rows : string -> list (string * string).
(** [re.finditer] of the [wrapTime] pattern on a cell: the pairs
    [(color_class, train_inner_html)]. *)
Variable re_train_blocks : string -> list (string * string).
(** [re.search] of the [wrapLegend] pattern on a block, group 1. *)
Variable re_legend : string -> option string.
(** [re.findall(r'<span>([^<]+)</span>', ...)]. *)
Variable re_spans : string -> list string.
(** [re.search(r'<span class="time">([^<]+)</span>', ...)], group 1. *)
Variable re_time : string -> option string.

Definition get_legends (train_inner_html : string) : list string :=
  match re_legend train_inner_html with
  | Some legend_html => re_spans legend_html
  | None => []
  end.

Definition block_destination (block : string * string) : string :=
  resolve_destination (get_legends (snd block)).

Definition block_train_type (block : string * string) : string :=
  resolve_train_type (get_legends (snd block)) (fst block).

(** The body of the loop over [train_blocks]. *)
Definition block_trip (block : string * string) : option trip :=
  match re_time (snd block) with
  | None => None
  | Some minute =>
      if String.eqb minute "－" then None
      else Some (mk_trip minute (block_train_type block)
                         (block_destination block)
                         (get_legends (snd block)))
  end.

Definition append_block (times : list trip) (block : string * string)
  : list trip :=
  match block_trip block with
  | Some t => times ++ [t]
  | None => times
  end.

Definition cell_times (trains_html : string) : list trip :=
  fold_left append_block (re_train_blocks trains_html) [].

Definition process_row (timetable : timetable_t) (row : string * string)
  : timetable_t :=
  match cell_times (snd row) with
  | [] => timetable
  | times => Py.dict_set (fst row) times timetable
  end.

Definition extract_timetable (html_content : string) : timetable_t :=
  match re_tbody html_content with
  | None => []
  | Some tbody => fold_left process_row (re_rows tbody) []
  end.

End Extraction.

(** The sort key of the hours: the same function as in
    timetable_converter.py. *)
Definition sort_hour (hour_str : string) : result Z :=
  if negb (Py.isdigit hour_str) then Ok 0%Z
  else
    hour <- Py.int hour_str ;;
    if (hour <=? 1)%Z then Ok (hour + 24)%Z else Ok hour.

Definition convert_to_nexttrain : list parsed_data -> result string :=
  convert_to_nexttrain destination_definitions train_type_definitions
                       sort_hour.

(** [extract_station_info] and [extract_legends], on the results of
    their searches. *)
Section Page.

(** The three [re.search] calls of [extract_station_info], group 1:
    station name, active direction tab, active day tab. *)
Variable re_station : string -> option string.
Variable re_direction : string -> option string.
Variable re_day : string -> option string.
(** [re.findall] of the [time-legend] pattern on the page, [re.search]
    of the heading pattern on a section (group 1) and [re.findall] of the
    list-item pattern on a section. *)
Variable re_legend_sections : string -> list string.
Variable re_head : string -> option string.
Variable re_items : string -> list string.

Definition extract_station_info (html_content : string) : station_info :=
  let name :=
    match re_station html_content with
    | Some g => Py.strip g
    | None => ""
    end in
  let direction :=
    match re_direction html_content with
    | Some g => Py.strip g
    | None => ""
    end in
  let day_type :=
    match re_day html_content with
    | Some g => Keisei.classify_day (Py.strip g)
    | None => ""
    end in
  mk_station name direction day_type.

Definition add_legend (head_text : string) (legends : legend_bundle)
           (text : string) : legend_bundle :=
  if Py.str_in "種別" head_text then
    mk_legends (train_types legends ++ [Py.strip text])
               (destinations legends) (connections legends)
  else if Py.str_in "行先" head_text then
    mk_legends (train_types legends)
               (destinations legends ++ [Py.strip text])
               (connections legends)
  else if Py.str_in "接続" head_text then
    mk_legends (train_types legends) (destinations legends)
               (connections legends ++ [Py.strip text])
  else legends.

Definition process_section (legends : legend_bundle) (section : string)
  : legend_bundle :=
  match re_head section with
  | None => legends
  | Some g => fold_left (add_legend (Py.strip g)) (re_items section) legends
  end.

Definition extract_legends (html_content : string) : legend_bundle :=
  fold_left process_section (re_legend_sections html_content)
            (mk_legends [] [] []).

End Page.

(** The name [main] gives the output file when every argument is a page:
    [name_without_ext] is the base name of the first page without its
    extension ([os.path.splitext(os.path.basename(...))[0]]); a final D
    or H and then a final S are removed. *)
Definition auto_output_file (name_without_ext : string) : string :=
  let name_without_ext :=
    if Py.last_char_in name_without_ext ["D"%char; "H"%char]
    then Py.drop_last name_without_ext
    else name_without_ext in
  let name_without_ext :=
    if Py.last_char_in name_without_ext ["S"%char]
    then Py.drop_last name_without_ext
    else name_without_ext in
  ("output_" ++ name_without_ext ++ ".txt")%string.

End Nishimagome.

(* ================================================================= *)
(** ** timetable_converter of the Nishimagome branch, Oshiage direction *)

Module Oshiage.

Definition train_type_definitions : Py.dict (string * string * string) :=
  [ ("k", ("アクセス特急", "ア", "#EE7A00"));
    ("l", ("普通", "普", "#000000"));
    ("m", ("快速", "快", "#FC82FC"));
    ("n", ("特急", "特", "#FF0033"));
    ("o", ("快特", "快", "#009966")) ].

Definition destination_definitions : Py.dict (string * string) :=
  [ ("a", ("印旛日本医大", "印"));
    ("b", ("芝山千代田", "芝"));
    ("c", ("印西牧の原", "牧"));
    ("d", ("押上", "押"));
    ("e", ("京成高砂", "高"));
    ("f", ("京成佐倉", "佐"));
    ("g", ("京成成田", "成"));
    ("h", ("成田空港", "空"));
    ("i", ("青砥", "青"));
    ("j", ("泉岳寺", "泉")) ].

Definition destination_map : Py.dict string :=
  [ ("印旛日本医大", "a"); ("医", "a");
    ("芝山千代田", "b"); ("芝", "b");
    ("印西牧の原", "c"); ("印", "c");
    ("押上", "d"); ("押", "d");
    ("京成高砂", "e"); ("高", "e");
    ("京成佐倉", "f"); ("佐", "f");
    ("京成成田", "g"); ("成", "g");
    ("成田空港", "h"); ("空", "h");
    ("青砥", "i"); ("青", "i");
    ("泉岳寺", "j");
    ("●", "j") ].

Definition default_destination : string := "j".
Definition default_train_type : string := "l".

Definition train_type_symbols : list string := ["ア"; "速"; "特"; "快"].

(** The train type, from the class tokens alone. *)
Definition resolve_train_type (classes : list string) : string :=
  if Py.in_list "color-pink" classes then "m"
  else if Py.in_list "color-red" classes then "n"
  else if Py.in_list "color-orange" classes then "k"
  else if Py.in_list "color-green" classes then "o"
  else default_train_type.

Definition get_legends : Bs4.PageElement -> list string :=
  Keisei.get_legends.

Fixpoint scan_destination (legends : list string) (destination : string)
  : string :=
  match legends with
  | [] => destination
  | legend :: rest =>
      if Py.in_list legend train_type_symbols then
        scan_destination rest destination
      else
        match Py.dict_get destination_map legend with
        | Some d => d
        | None => scan_destination rest destination
        end
  end.

(** The scan runs inside [if legend_elem:]; without a legend element the
    destination stays at its default. *)
Definition block_destination (wrap_time : Bs4.PageElement) : string :=
  match Bs4.find "div" (Some "wrapLegend") wrap_time with
  | None => default_destination
  | Some _ => scan_destination (get_legends wrap_time) default_destination
  end.

Definition block_train_type (wrap_time : Bs4.PageElement) : string :=
  resolve_train_type (Bs4.get_class wrap_time).

(** The body of the loop over the blocks of a cell; the placeholder is
    not tested here. *)
Definition block_trip (wrap_time : Bs4.PageElement) : option trip :=
  match Bs4.find "span" (Some "time") wrap_time with
  | None => None
  | Some time_elem =>
      let minute := Py.strip (Bs4.text time_elem) in
      Some (mk_trip minute (block_train_type wrap_time)
                    (block_destination wrap_time)
                    (get_legends wrap_time))
  end.

Definition append_block (times : list trip) (wrap_time : Bs4.PageElement)
  : list trip :=
  match block_trip wrap_time with
  | Some t => times ++ [t]
  | None => times
  end.

Definition cell_times (time_cell : Bs4.PageElement) : list trip :=
  fold_left append_block
            (Bs4.find_all "div" (Some "wrapTime") time_cell) [].

Definition process_row (timetable : timetable_t) (row : Bs4.PageElement)
  : timetable_t :=
  match Bs4.find "th" None row with
  | None => timetable
  | Some hour_elem =>
      let hour := Py.strip (Bs4.text hour_elem) in
      match Bs4.find "td" None row with
      | None => timetable
      | Some time_cell =>
          match cell_times time_cell with
          | [] => timetable
          | times => Py.dict_set hour times timetable
          end
      end
  end.

Definition extract_timetable (soup : Bs4.PageElement) : timetable_t :=
  match Bs4.find "table" (Some "tt-table") soup with
  | None => []
  | Some table =>
      match Bs4.find "tbody" None table with
      | None => []
      | Some tbody =>
          fold_left process_row (Bs4.find_all "tr" None tbody) []
      end
  end.

(** [lambda x: int(x) if x.isdigit() else 0]. *)
Definition sort_hour (x : string) : result Z :=
  if Py.isdigit x then Py.int x else Ok 0%Z.

Definition convert_to_nexttrain : list parsed_data -> result string :=
  convert_to_nexttrain destination_definitions train_type_definitions
                       sort_hour.

End Oshiage.

(* ================================================================= *)
(** ** Example blocks *)

Module Examples.

Import Bs4.

Definition span (s : string) : PageElement :=
  Tag "span" [] [NavigableString s].

(** A [wrapTime] block with the given colour token, legend glyphs and
    time text. *)
Definition wrap_time (color : string) (glyphs : list string)
           (time : string) : PageElement :=
  Tag "div" ["wrapTime"; color]
      [ Tag "div" ["wrapLegend"] (map span glyphs);
        Tag "span" ["time"] [NavigableString time] ].

(** A block without a time element. *)
Definition wrap_time_no_time (color : string) (glyphs : list string)
  : PageElement :=
  Tag "div" ["wrapTime"; color]
      [ Tag "div" ["wrapLegend"] (map span glyphs) ].

Definition airport_orange : PageElement :=
  wrap_time "color-orange" ["エ"; "空"] "05".

Definition airport_green : PageElement :=
  wrap_time "color-green" ["エ"; "空"] "05".

Definition placeholder_block : PageElement :=
  wrap_time "color-red" ["押"] "－".

(** A page whose active direction tab has no anchor. *)
Definition page_without_anchor : PageElement :=
  Tag "[document]" []
      [ Tag "h1" ["station-name"] [NavigableString "西馬込"];
        Tag "ul" ["directionNavi"]
            [ Tag "li" ["directionNavi__item"; "is-active"]
                  [NavigableString "押上"] ] ].

(** A page with one row, hour 5, holding the given blocks. *)
Definition one_row_page (blocks : list PageElement) : PageElement :=
  Tag "[document]" []
      [ Tag "table" ["tt-table"]
            [ Tag "tbody" []
                  [ Tag "tr" []
                        [ Tag "th" [] [NavigableString "5"];
                          Tag "td" [] blocks ] ] ] ].

(** Constant results for the regular-expression searches of the
    Nishimagome script, to run its loop body on a concrete block: a
    search that fails, and a search whose group is its whole input. *)
Definition no_match (_ : string) : option string := None.
Definition some_match (s : string) : option string := Some s.
Definition no_spans (_ : string) : list string := [].

(** A page with a station name, both active tabs and their anchors. *)
Definition tab (cls text : string) : PageElement :=
  Tag "li" [cls; "is-active"] [Tag "a" [] [NavigableString text]].

Definition page_with_tabs (day : string) : PageElement :=
  Tag "[document]" []
      [ Tag "h1" ["station-name"] [NavigableString " 西馬込 "];
        Tag "ul" [] [tab "directionNavi__item" "押上・京成線・北総線"];
        Tag "ul" [] [tab "dayNavi__item" day] ].

End Examples.

(* ================================================================= *)
(** ** Properties the statements below are written with *)

(** Every value stored in a dictionary satisfies [P]. *)
Definition all_values {V} (P : V -> Prop) (d : Py.dict V) : Prop :=
  forall h v, In (h, v) d -> P v.

(** No trip of the list carries the placeholder as its minute. *)
Definition no_placeholder (times : list trip) : Prop :=
  Forall (fun t => minute t <> "－") times.

(** What the two filtering scripts register for an hour: a non-empty
    list without the placeholder. *)
Definition registered_filtered (times : list trip) : Prop :=
  times <> [] /\ no_placeholder times.

(** The orders on hour labels induced by a sort key. *)
Definition key_le (key : string -> Z) (a b : string) : Prop :=
  (key a <= key b)%Z.




(** The line the specification asks for an hour: nothing for an absent
    or empty hour, else the label and the entries of its trips. *)
Definition hour_line (timetable : timetable_t) (hour : string)
  : list string :=
  match Py.dict_get timetable hour with
  | Some (t :: ts) =>
      [(hour ++ ": " ++ Py.join " " (map entry (t :: ts)))%string]
  | _ => []
  end.

(** The block of one parsed timetable: a blank line, the day header, the
    title, the hour lines in the order of the sort key. *)
Definition timetable_block (sort_hour : string -> Z) (parsed : parsed_data)
  : list string :=
  [""; day_header (station parsed); title (station parsed)]
  ++ flat_map (hour_line (timetable parsed))
              (Py.sorted_key sort_hour (Py.dict_keys (timetable parsed))).

Definition destination_line (def : string * (string * string)) : string :=
  let '(code, (name, abbr)) := def in
  (code ++ ":" ++ name ++ ";" ++ abbr)%string.

Definition train_type_line (def : string * (string * string * string))
  : string :=
  let '(code, (name, abbr, color)) := def in
  (code ++ ":" ++ name ++ ";" ++ abbr ++ ";" ++ color)%string.

(** A timetable with the four hours of the ordering example, registered
    in another order, and its parsed data. *)
Definition sample_trip (m : string) : trip := mk_trip m "o" "j" [].

Definition late_timetable : timetable_t :=
  [ ("1", [sample_trip "02"]); ("0", [sample_trip "15"]);
    ("23", [sample_trip "10"; sample_trip "40"]); ("3", [sample_trip "55"]) ].

Definition late_parsed : parsed_data :=
  mk_parsed (mk_station "西馬込" "押上・京成線・北総線" "weekday")
            late_timetable (mk_legends [] [] []).

(** A glyph that names a destination: it is not a type symbol of the
    variant and it is a key of the destination map. *)
Definition names_destination (symbols : list string)
           (dmap : Py.dict string) (g : string) : bool :=
  negb (Py.in_list g symbols) && Py.dict_mem dmap g.

(** The first-match rule of the specification: the code of the first
    glyph, in document order, that names a destination; the default code
    when there is none. *)
Definition first_match_destination (symbols : list string)
           (dmap : Py.dict string) (default : string)
           (legends : list string) : string :=
  match find (names_destination symbols dmap) legends with
  | Some g =>
      match Py.dict_get dmap g with
      | Some code => code
      | None => default
      end
  | None => default
  end.

(** The track glyphs of the Nishimagome variant and their codes. *)
Definition is_track_glyph (g : string) : bool :=
  String.eqb g "①" || String.eqb g "②".

Definition track_code (g : string) : string :=
  if String.eqb g "①" then "f" else "g".

(** In the Nishimagome loop a glyph reaches the track test when it is
    not a type symbol, and the destination map when it is neither. *)
Definition nm_track (g : string) : bool :=
  negb (Py.in_list g Nishimagome.train_type_symbols) && is_track_glyph g.

Definition nm_name (g : string) : bool :=
  negb (Py.in_list g Nishimagome.train_type_symbols)
  && negb (is_track_glyph g)
  && Py.dict_mem Nishimagome.destination_map g.

(** The rule the Nishimagome loop implements: the code of the last glyph
    that names a destination; without one, the code of the last track
    glyph; without one, track 1. *)
Definition last_match_destination (legends : list string) : string :=
  match find nm_name (rev legends) with
  | Some g =>
      match Py.dict_get Nishimagome.destination_map g with
      | Some code => code
      | None => Nishimagome.default_destination
      end
  | None =>
      match find nm_track (rev legends) with
      | Some g => track_code g
      | None => Nishimagome.default_destination
      end
  end.

(** The three lists of the legend dictionary. *)
Inductive bucket : Type :=
| TrainTypes
| Destinations
| Connections.

Definition bucket_of (b : bucket) (legends : legend_bundle) : list string :=
  match b with
  | TrainTypes => train_types legends
  | Destinations => destinations legends
  | Connections => connections legends
  end.

Definition bucket_eqb (a b : bucket) : bool :=
  match a, b with
  | TrainTypes, TrainTypes => true
  | Destinations, Destinations => true
  | Connections, Connections => true
  | _, _ => false
  end.

(** The list a heading sends its items to: the first of the three tokens
    it contains decides. *)
Definition heading_bucket (head_text : string) : option bucket :=
  if Py.str_in "種別" head_text then Some TrainTypes
  else if Py.str_in "行先" head_text then Some Destinations
  else if Py.str_in "接続" head_text then Some Connections
  else None.

Definition heading_is (b : bucket) (head_text : string) : bool :=
  match heading_bucket head_text with
  | Some b' => bucket_eqb b b'
  | None => false
  end.

(** The items a legend section of a BeautifulSoup page gives to the list
    [b]. *)
Definition section_items (b : bucket) (section : Bs4.PageElement)
  : list string :=
  match Bs4.find "dt" (Some "time-legend__head") section with
  | None => []
  | Some head =>
      if heading_is b (Py.strip (Bs4.text head))
      then map (fun item => Py.strip (Bs4.text item))
               (Bs4.find_all "li" None section)
      else []
  end.

(** The same for a section of the regular-expression script. *)
Definition re_section_items (re_head : string -> option string)
           (re_items : string -> list string) (b : bucket)
           (section : string) : list string :=
  match re_head section with
  | None => []
  | Some g =>
      if heading_is b (Py.strip g) then map Py.strip (re_items section)
      else []
  end.

(** The binding a list of optional bindings gives a key: the last one
    for that key. *)
Definition binds {V} (h : string) (e : option (string * V)) : bool :=
  match e with
  | Some (k, _) => String.eqb h k
  | None => false
  end.

Definition last_binding {V} (h : string)
           (entries : list (option (string * V))) : option V :=
  match find (binds h) (rev entries) with
  | Some (Some (_, v)) => Some v
  | _ => None
  end.

Definition option_list {X} (o : option X) : list X :=
  match o with
  | Some x => [x]
  | None => []
  end.

(** The rows the loop of timetable_converter.py runs over, and what a
    row registers: its hour label with the trips of its blocks, in
    document order, when there is at least one. *)
Definition keisei_rows (soup : Bs4.PageElement) : list Bs4.PageElement :=
  match Bs4.find "table" (Some "tt-table") soup with
  | None => []
  | Some table =>
      match Bs4.find "tbody" None table with
      | None => []
      | Some tbody => Bs4.find_all "tr" None tbody
      end
  end.

Definition keisei_row (row : Bs4.PageElement)
  : option (string * list trip) :=
  match Bs4.find "th" None row, Bs4.find "td" None row with
  | Some hour_elem, Some time_cell =>
      match flat_map (fun wrap_time =>
                        option_list (Keisei.block_trip wrap_time))
                     (Bs4.find_all "div" (Some "wrapTime") time_cell) with
      | [] => None
      | times => Some (Py.strip (Bs4.text hour_elem), times)
      end
  | _, _ => None
  end.

(** A character of a string. *)
Fixpoint occurs (c : ascii) (s : string) : bool :=
  match s with
  | EmptyString => false
  | String a s' => Ascii.eqb c a || occurs c s'
  end.

(** The arguments [main] was given back from its decision. *)
Definition output_args (output_file : option string) : list string :=
  option_list output_file.

(** The key of a label when the key function returns. *)
Definition key_value (key : string -> result Z) (h : string) : Z :=
  match key h with
  | Ok v => v
  | Raise _ => 0%Z
  end.



(** A label on which the key function raises. *)
Definition key_raises (key : string -> result Z) (h : string) : Prop :=
  exists e, key h = Raise e.

(** A timetable all of whose hour labels have a key. *)
Definition sortable (key : string -> result Z) (timetable : timetable_t)
  : Prop :=
  forall h, In h (Py.dict_keys timetable) -> exists v, key h = Ok v.

(** An hour label that [isdigit] accepts and [int] refuses. *)
Definition bad_label (h : string) : Prop :=
  Py.isdigit h = true /\ exists e, Py.int h = Raise e.


(** The rows of the Oshiage-direction script and what a row registers:
    every block with a time element gives a trip. *)
Definition oshiage_rows (soup : Bs4.PageElement) : list Bs4.PageElement :=
  match Bs4.find "table" (Some "tt-table") soup with
  | None => []
  | Some table =>
      match Bs4.find "tbody" None table with
      | None => []
      | Some tbody => Bs4.find_all "tr" None tbody
      end
  end.

Definition oshiage_row (row : Bs4.PageElement)
  : option (string * list trip) :=
  match Bs4.find "th" None row, Bs4.find "td" None row with
  | Some hour_elem, Some time_cell =>
      match flat_map (fun wrap_time =>
                        option_list (Oshiage.block_trip wrap_time))
                     (Bs4.find_all "div" (Some "wrapTime") time_cell) with
      | [] => None
      | times => Some (Py.strip (Bs4.text hour_elem), times)
      end
  | _, _ => None
  end.

(* ================================================================= *)
(** ** Facts about the Python built-ins *)

Lemma in_list_In (x : string) (xs : list string) :
  Py.in_list x xs = true <-> In x xs.
Proof.
  unfold Py.in_list. rewrite existsb_exists. split.
  - intros (y & Hy & He). apply String.eqb_eq in He. now subst.
  - intros H. exists x. split; [assumption | apply String.eqb_refl].
Qed.

Lemma in_list_not_In (x : string) (xs : list string) :
  Py.in_list x xs = false <-> ~ In x xs.
Proof.
  rewrite <- in_list_In. destruct (Py.in_list x xs); split; intros;
    congruence.
Qed.

Lemma find_app {A} (f : A -> bool) (l1 l2 : list A) :
  find f (l1 ++ l2) =
  match find f l1 with
  | Some x => Some x
  | None => find f l2
  end.
Proof.
  induction l1 as [|a l1 IH]; simpl; [reflexivity|].
  destruct (f a); [reflexivity | exact IH].
Qed.

Lemma find_none_iff {A} (f : A -> bool) (l : list A) :
  find f l = None <-> forall x, In x l -> f x = false.
Proof.
  split.
  - apply find_none.
  - induction l as [|a l IH]; simpl; intros H; [reflexivity|].
    rewrite (H a (or_introl eq_refl)). apply IH. intros x Hx.
    apply H. now right.
Qed.

Lemma dict_get_In {V} (d : Py.dict V) (k : string) (v : V) :
  Py.dict_get d k = Some v -> In (k, v) d.
Proof.
  induction d as [|[k' v'] d IH]; simpl; [discriminate|].
  destruct (String.eqb k k') eqn:E.
  - apply String.eqb_eq in E. intros [= ->]. subst. now left.
  - intros H. right. now apply IH.
Qed.

Lemma dict_get_value {V} (d : Py.dict V) (k : string) (v : V) :
  Py.dict_get d k = Some v -> In v (Py.dict_values d).
Proof.
  intros H. apply dict_get_In in H. unfold Py.dict_values.
  change v with (snd (k, v)). now apply in_map.
Qed.

Lemma dict_set_In {V} (k : string) (v : V) (d : Py.dict V) h ts :
  In (h, ts) (Py.dict_set k v d) -> (h = k /\ ts = v) \/ In (h, ts) d.
Proof.
  induction d as [|[k' v'] d IH]; simpl.
  - intros [[= <- <-]|[]]. now left.
  - destruct (String.eqb k k') eqn:E; simpl.
    + apply String.eqb_eq in E. subst k'.
      intros [[= <- <-]|H]; [now left | right; now right].
    + intros [H|H]; [right; now left|].
      destruct (IH H) as [?|?]; [now left | right; now right].
Qed.

Lemma all_values_set {V} (P : V -> Prop) k v (d : Py.dict V) :
  P v -> all_values P d -> all_values P (Py.dict_set k v d).
Proof.
  intros Hv Hd h ts Hin. apply dict_set_In in Hin.
  destruct Hin as [[_ ->]|Hin]; [assumption | now apply (Hd h)].
Qed.

Lemma all_values_fold {V R} (P : V -> Prop)
      (step : Py.dict V -> R -> Py.dict V) (rows : list R) :
  (forall d r, all_values P d -> all_values P (step d r)) ->
  forall d, all_values P d -> all_values P (fold_left step rows d).
Proof.
  intros Hstep. induction rows as [|r rows IH]; simpl; intros d Hd.
  - exact Hd.
  - apply IH. now apply Hstep.
Qed.

Lemma all_values_nil {V} (P : V -> Prop) : all_values P (@nil (string * V)).
Proof. intros h v []. Qed.

(* ================================================================= *)
(** ** The classifier of timetable_converter.py *)

(** The dictionary appended for a block carries the type, destination
    and legends computed for that block. *)
Lemma keisei_block_trip_fields (wrap_time : Bs4.PageElement) (t : trip) :
  Keisei.block_trip wrap_time = Some t ->
  train_type t = Keisei.block_train_type wrap_time /\
  destination t = Keisei.block_destination wrap_time /\
  legends t = Keisei.get_legends wrap_time.
Proof.
  unfold Keisei.block_trip.
  destruct (Bs4.find "span" (Some "time") wrap_time); [|discriminate].
  destruct (String.eqb _ "－"); [discriminate|].
  intros [= <-]. simpl. auto.
Qed.

(** C1.  In timetable_converter.py, a block whose legends contain the
    airport glyph gets type "m" exactly when its class tokens contain
    color-orange and its destination, resolved before, is "i"; in every
    other case it gets "l".  The colour table plays no part: the type is
    one of these two codes. *)
Theorem C1_airport_glyph_type (wrap_time : Bs4.PageElement) :
  In "エ" (Keisei.get_legends wrap_time) ->
  (Keisei.block_train_type wrap_time = "m" <->
     In "color-orange" (Bs4.get_class wrap_time) /\
     Keisei.block_destination wrap_time = "i") /\
  (Keisei.block_train_type wrap_time = "l" <->
     ~ (In "color-orange" (Bs4.get_class wrap_time) /\
        Keisei.block_destination wrap_time = "i")) /\
  (forall t, Keisei.block_trip wrap_time = Some t ->
     train_type t = Keisei.block_train_type wrap_time /\
     destination t = Keisei.block_destination wrap_time).
Proof.
  intros Hglyph. apply in_list_In in Hglyph.
  split; [|split].
  3: { intros t Ht. apply keisei_block_trip_fields in Ht. tauto. }
  all: unfold Keisei.block_train_type, Keisei.resolve_train_type;
    rewrite Hglyph;
    destruct (Py.in_list "color-orange" (Bs4.get_class wrap_time)) eqn:Hc;
    [apply in_list_In in Hc | apply in_list_not_In in Hc];
    (destruct (String.eqb (Keisei.block_destination wrap_time) "i") eqn:Hd;
     [apply String.eqb_eq in Hd | apply String.eqb_neq in Hd]);
    simpl; split; intros H; try discriminate H; try tauto.
Qed.

Lemma C1_airport_glyph_type_witness :
  Keisei.block_train_type Examples.airport_orange = "m" /\
  Keisei.block_train_type Examples.airport_green = "l".
Proof.
  split.
  - apply (C1_airport_glyph_type Examples.airport_orange).
    + vm_compute. left. reflexivity.
    + split; [vm_compute; right; left; reflexivity | reflexivity].
  - apply (C1_airport_glyph_type Examples.airport_green).
    + vm_compute. left. reflexivity.
    + vm_compute. intros [[H|[H|[]]] _]; discriminate H.
Defined.

(* ================================================================= *)
(** ** Destination resolution *)

Section FirstMatch.

Variables (symbols : list string) (dmap : Py.dict string).

(** The first-match rule stops at the first glyph that names a
    destination: what follows it does not matter. *)
Lemma first_match_stops (default code g : string)
      (pre post : list string) :
  (forall x, In x pre -> names_destination symbols dmap x = false) ->
  Py.in_list g symbols = false ->
  Py.dict_get dmap g = Some code ->
  first_match_destination symbols dmap default (pre ++ g :: post) = code.
Proof.
  intros Hpre Hsym Hget. unfold first_match_destination.
  rewrite find_app. apply find_none_iff in Hpre. rewrite Hpre. simpl.
  unfold names_destination, Py.dict_mem. rewrite Hsym, Hget. simpl.
  now rewrite Hget.
Qed.

Lemma first_match_none (default : string) (legends : list string) :
  (forall x, In x legends -> names_destination symbols dmap x = false) ->
  first_match_destination symbols dmap default legends = default.
Proof.
  intros H. unfold first_match_destination.
  apply find_none_iff in H. now rewrite H.
Qed.

(** The result of the rule is the default or a value of the map. *)
Lemma first_match_range (default : string) (legends : list string) :
  first_match_destination symbols dmap default legends = default \/
  In (first_match_destination symbols dmap default legends)
     (Py.dict_values dmap).
Proof.
  unfold first_match_destination.
  destruct (find _ legends) as [g|]; [|now left].
  destruct (Py.dict_get dmap g) as [code|] eqn:E; [|now left].
  right. eapply dict_get_value. exact E.
Qed.

End FirstMatch.

Lemma keisei_scan_first_match (legends : list string) (d : string) :
  Keisei.scan_destination legends d =
  first_match_destination Keisei.train_type_symbols Keisei.destination_map
                          d legends.
Proof.
  unfold first_match_destination.
  induction legends as [|g rest IH]; [reflexivity|].
  cbn [Keisei.scan_destination find]. unfold names_destination at 1.
  unfold Py.dict_mem.
  destruct (Py.in_list g Keisei.train_type_symbols);
    cbn [negb andb]; [exact IH|].
  destruct (Py.dict_get Keisei.destination_map g) eqn:E; cbn [negb andb].
  - now rewrite E.
  - exact IH.
Qed.

Lemma oshiage_scan_first_match (legends : list string) (d : string) :
  Oshiage.scan_destination legends d =
  first_match_destination Oshiage.train_type_symbols Oshiage.destination_map
                          d legends.
Proof.
  unfold first_match_destination.
  induction legends as [|g rest IH]; [reflexivity|].
  cbn [Oshiage.scan_destination find]. unfold names_destination at 1.
  unfold Py.dict_mem.
  destruct (Py.in_list g Oshiage.train_type_symbols);
    cbn [negb andb]; [exact IH|].
  destruct (Py.dict_get Oshiage.destination_map g) eqn:E; cbn [negb andb].
  - now rewrite E.
  - exact IH.
Qed.

Lemma oshiage_no_legend_elem (wrap_time : Bs4.PageElement) :
  Bs4.find "div" (Some "wrapLegend") wrap_time = None ->
  Oshiage.get_legends wrap_time = [].
Proof.
  intros H. unfold Oshiage.get_legends, Keisei.get_legends. now rewrite H.
Qed.

(** The state of the Nishimagome loop after the whole list. *)
Lemma nishimagome_scan_legends (legends : list string)
      (d p : option string) :
  Nishimagome.scan_legends legends d p =
  (match find nm_name (rev legends) with
   | Some g => Py.dict_get Nishimagome.destination_map g
   | None => d
   end,
   match find nm_track (rev legends) with
   | Some g => Some (track_code g)
   | None => p
   end).
Proof.
  revert d p. induction legends as [|g rest IH]; intros d p; [reflexivity|].
  cbn [Nishimagome.scan_legends rev]. rewrite !find_app.
  cbn [find]. unfold nm_name at 2, nm_track at 2, is_track_glyph.
  unfold Py.dict_mem.
  destruct (Py.in_list g Nishimagome.train_type_symbols); cbn [negb andb orb].
  { rewrite IH. destruct (find nm_name _), (find nm_track _); reflexivity. }
  destruct (String.eqb g "①") eqn:E1; cbn [negb andb orb].
  { rewrite IH.
    destruct (find nm_name _), (find nm_track _); try reflexivity;
      unfold track_code; now rewrite E1. }
  destruct (String.eqb g "②") eqn:E2; cbn [negb andb orb].
  { rewrite IH.
    destruct (find nm_name _), (find nm_track _); try reflexivity;
      unfold track_code; now rewrite E1. }
  destruct (Py.dict_get Nishimagome.destination_map g) eqn:E; rewrite IH;
    cbn [negb andb orb];
    destruct (find nm_name _), (find nm_track _); try reflexivity;
    now rewrite E.
Qed.

Lemma nm_name_get (g : string) :
  nm_name g = true ->
  exists code, Py.dict_get Nishimagome.destination_map g = Some code.
Proof.
  unfold nm_name, Py.dict_mem. intros H.
  apply andb_true_iff in H. destruct H as [_ H].
  destruct (Py.dict_get Nishimagome.destination_map g) as [c|];
    [now exists c | discriminate].
Qed.

Lemma nishimagome_resolve_last_match (legends : list string) :
  Nishimagome.resolve_destination legends = last_match_destination legends.
Proof.
  unfold Nishimagome.resolve_destination, last_match_destination.
  rewrite nishimagome_scan_legends.
  destruct (find nm_name (rev legends)) as [g|] eqn:E.
  - apply find_some in E. destruct E as [_ E].
    destruct (nm_name_get g E) as [code ->]. reflexivity.
  - destruct (find nm_track (rev legends)); reflexivity.
Qed.

(** A glyph of the Nishimagome map that is not a track glyph is mapped
    to a code other than the two track codes. *)
Lemma nishimagome_name_code (g code : string) :
  Py.dict_get Nishimagome.destination_map g = Some code ->
  is_track_glyph g = false ->
  code <> "f" /\ code <> "g".
Proof.
  intros Hget Htrack. apply dict_get_In in Hget.
  assert (Hall : forallb (fun kv : string * string =>
                   is_track_glyph (fst kv) ||
                   negb (String.eqb (snd kv) "f" || String.eqb (snd kv) "g"))
                   Nishimagome.destination_map = true) by reflexivity.
  rewrite forallb_forall in Hall. specialize (Hall _ Hget). simpl in Hall.
  rewrite Htrack in Hall. simpl in Hall.
  apply negb_true_iff, orb_false_iff in Hall. destruct Hall as [Hf Hg].
  apply String.eqb_neq in Hf, Hg. now split.
Qed.

Lemma find_pointwise {A} (f g : A -> bool) (l : list A) :
  (forall x, f x = g x) -> find f l = find g l.
Proof.
  intros H. induction l as [|a l IH]; simpl; [reflexivity|].
  rewrite H, IH. reflexivity.
Qed.

(** The track glyphs are not type symbols. *)
Lemma nm_track_is_track (g : string) : nm_track g = is_track_glyph g.
Proof.
  unfold nm_track, is_track_glyph.
  destruct (String.eqb g "①") eqn:E1;
    [apply String.eqb_eq in E1; subst; reflexivity|].
  destruct (String.eqb g "②") eqn:E2;
    [apply String.eqb_eq in E2; subst; reflexivity|].
  apply andb_false_r.
Qed.

(** C2, as the three scripts have it.  In timetable_converter.py and in the Oshiage-direction
    script the destination of a block is given by the first-match rule:
    the legends are scanned in document order, type symbols are skipped,
    the first remaining glyph that is a key of the destination map gives
    the code and ends the scan, and without such a glyph the default code
    stays.  The Nishimagome script does not stop at a match: the last
    glyph that names a destination gives the code; without one the last
    track glyph does; without one the default "f" stays. *)
Theorem C2_destination_scan :
  (forall wrap_time,
     Keisei.block_destination wrap_time =
     first_match_destination Keisei.train_type_symbols
       Keisei.destination_map Keisei.default_destination
       (Keisei.get_legends wrap_time)) /\
  (forall wrap_time,
     Oshiage.block_destination wrap_time =
     first_match_destination Oshiage.train_type_symbols
       Oshiage.destination_map Oshiage.default_destination
       (Oshiage.get_legends wrap_time)) /\
  (forall re_legend re_spans block,
     Nishimagome.block_destination re_legend re_spans block =
     last_match_destination
       (Nishimagome.get_legends re_legend re_spans (snd block))).
Proof.
  split; [|split].
  - intros wrap_time. apply keisei_scan_first_match.
  - intros wrap_time. unfold Oshiage.block_destination.
    destruct (Bs4.find "div" (Some "wrapLegend") wrap_time) eqn:E.
    + apply oshiage_scan_first_match.
    + now rewrite (oshiage_no_legend_elem _ E).
  - intros re_legend re_spans block.
    apply nishimagome_resolve_last_match.
Qed.

(** The first-match rule fails in the Nishimagome script: with two
    destination glyphs the later one wins. *)
Lemma C2_counterexample :
  Nishimagome.resolve_destination ["羽"; "品"] <>
  first_match_destination Nishimagome.train_type_symbols
    Nishimagome.destination_map Nishimagome.default_destination
    ["羽"; "品"].
Proof. vm_compute. discriminate. Qed.

(** C3, as the script has it.  In the Nishimagome script a track glyph decides the
    destination only when no glyph of the legends names a destination:
    the code is then that of the last track glyph.  When a glyph names a
    destination, the destination is the code of such a glyph and is
    neither track code. *)
Theorem C3_track_glyph_fallback (legends : list string) :
  ((forall g, In g legends -> nm_name g = false) ->
   Nishimagome.resolve_destination legends =
   match find is_track_glyph (rev legends) with
   | Some g => track_code g
   | None => Nishimagome.default_destination
   end) /\
  (forall g, In g legends -> nm_name g = true ->
   exists g' code,
     In g' legends /\ nm_name g' = true /\
     Py.dict_get Nishimagome.destination_map g' = Some code /\
     Nishimagome.resolve_destination legends = code /\
     code <> "f" /\ code <> "g").
Proof.
  rewrite nishimagome_resolve_last_match. unfold last_match_destination.
  split.
  - intros Hnone.
    assert (Hfind : find nm_name (rev legends) = None).
    { apply find_none_iff. intros x Hx. apply Hnone. now apply in_rev. }
    rewrite Hfind.
    now rewrite (find_pointwise nm_track is_track_glyph _ nm_track_is_track).
  - intros g Hin Hname.
    destruct (find nm_name (rev legends)) as [g'|] eqn:E.
    + apply find_some in E. destruct E as [Hin' Hname'].
      destruct (nm_name_get g' Hname') as [code Hcode].
      exists g', code. rewrite Hcode.
      split; [now apply in_rev|]. split; [assumption|].
      split; [reflexivity|]. split; [reflexivity|].
      apply (nishimagome_name_code g' code Hcode).
      unfold nm_name in Hname'.
      apply andb_true_iff in Hname'. destruct Hname' as [Hname' _].
      apply andb_true_iff in Hname'. destruct Hname' as [_ Hname'].
      now apply negb_true_iff in Hname'.
    + rewrite find_none_iff in E. rewrite (E g) in Hname;
        [discriminate | now apply in_rev in Hin].
Qed.

Lemma C3_track_glyph_fallback_witness :
  Nishimagome.resolve_destination ["特"; "②"] = "g" /\
  exists g' code,
    In g' ["①"; "品"] /\ nm_name g' = true /\
    Py.dict_get Nishimagome.destination_map g' = Some code /\
    Nishimagome.resolve_destination ["①"; "品"] = code /\
    code <> "f" /\ code <> "g".
Proof.
  split.
  - apply (proj1 (C3_track_glyph_fallback ["特"; "②"])).
    intros g [<-|[<-|[]]]; reflexivity.
  - apply (proj2 (C3_track_glyph_fallback ["①"; "品"]) "品").
    + right. left. reflexivity.
    + reflexivity.
Defined.

(** With a track glyph and a destination glyph in the legends, the
    destination is not the track code. *)
Lemma C3_counterexample :
  In "①" ["①"; "品"] /\
  Py.dict_get Nishimagome.destination_map "①" = Some "f" /\
  Nishimagome.resolve_destination ["①"; "品"] <> "f".
Proof.
  split; [left; reflexivity|]. split; [reflexivity|].
  vm_compute. discriminate.
Qed.

(* ================================================================= *)
(** ** The extraction loops *)

(** A loop that appends at most one trip per block keeps a property of
    all trips when every appended trip has it. *)
Lemma fold_append_Forall {B} (P : trip -> Prop) (f : B -> option trip)
      (step : list trip -> B -> list trip) :
  (forall times b,
     step times b = match f b with
                    | Some t => times ++ [t]
                    | None => times
                    end) ->
  (forall b t, f b = Some t -> P t) ->
  forall blocks times,
    Forall P times -> Forall P (fold_left step blocks times).
Proof.
  intros Hstep Hf. induction blocks as [|b blocks IH]; simpl; intros times H.
  - exact H.
  - apply IH. rewrite Hstep. destruct (f b) as [t|] eqn:E; [|exact H].
    apply Forall_app. split; [exact H|].
    constructor; [|constructor]. now apply (Hf b).
Qed.

Lemma keisei_block_trip_minute (wrap_time : Bs4.PageElement) (t : trip) :
  Keisei.block_trip wrap_time = Some t -> minute t <> "－".
Proof.
  unfold Keisei.block_trip.
  destruct (Bs4.find "span" (Some "time") wrap_time); [|discriminate].
  destruct (String.eqb _ "－") eqn:E; [discriminate|].
  intros [= <-]. simpl. now apply String.eqb_neq.
Qed.

Lemma nishimagome_block_trip_minute re_legend re_spans re_time block t :
  Nishimagome.block_trip re_legend re_spans re_time block = Some t ->
  minute t <> "－".
Proof.
  unfold Nishimagome.block_trip.
  destruct (re_time (snd block)); [|discriminate].
  destruct (String.eqb _ "－") eqn:E; [discriminate|].
  intros [= <-]. simpl. now apply String.eqb_neq.
Qed.

Lemma keisei_timetable_invariant (soup : Bs4.PageElement) :
  all_values registered_filtered (Keisei.extract_timetable soup).
Proof.
  unfold Keisei.extract_timetable.
  destruct (Bs4.find "table" _ soup) as [table|]; [|apply all_values_nil].
  destruct (Bs4.find "tbody" _ table) as [tbody|]; [|apply all_values_nil].
  apply all_values_fold; [|apply all_values_nil].
  intros d row Hd. unfold Keisei.process_row.
  destruct (Bs4.find "th" None row); [|exact Hd].
  destruct (Bs4.find "td" None row) as [time_cell|]; [|exact Hd].
  assert (Hno : no_placeholder (Keisei.cell_times time_cell)).
  { unfold Keisei.cell_times.
    apply (fold_append_Forall _ Keisei.block_trip);
      [reflexivity | apply keisei_block_trip_minute | constructor]. }
  destruct (Keisei.cell_times time_cell) as [|t times] eqn:E; [exact Hd|].
  apply all_values_set; [|exact Hd]. split; [discriminate | exact Hno].
Qed.

Lemma nishimagome_timetable_invariant
      re_tbody re_rows re_train_blocks re_legend re_spans re_time html :
  all_values registered_filtered
    (Nishimagome.extract_timetable re_tbody re_rows re_train_blocks
                                   re_legend re_spans re_time html).
Proof.
  unfold Nishimagome.extract_timetable.
  destruct (re_tbody html) as [tbody|]; [|apply all_values_nil].
  apply all_values_fold; [|apply all_values_nil].
  intros d row Hd. unfold Nishimagome.process_row.
  assert (Hno : no_placeholder
                  (Nishimagome.cell_times re_train_blocks re_legend
                                          re_spans re_time (snd row))).
  { unfold Nishimagome.cell_times.
    apply (fold_append_Forall
             _ (Nishimagome.block_trip re_legend re_spans re_time));
      [reflexivity | apply nishimagome_block_trip_minute | constructor]. }
  destruct (Nishimagome.cell_times _ _ _ _ (snd row)) as [|t times] eqn:E;
    [exact Hd|].
  apply all_values_set; [|exact Hd]. split; [discriminate | exact Hno].
Qed.

Lemma oshiage_timetable_invariant (soup : Bs4.PageElement) :
  all_values (fun times => times <> []) (Oshiage.extract_timetable soup).
Proof.
  unfold Oshiage.extract_timetable.
  destruct (Bs4.find "table" _ soup) as [table|]; [|apply all_values_nil].
  destruct (Bs4.find "tbody" _ table) as [tbody|]; [|apply all_values_nil].
  apply all_values_fold; [|apply all_values_nil].
  intros d row Hd. unfold Oshiage.process_row.
  destruct (Bs4.find "th" None row); [|exact Hd].
  destruct (Bs4.find "td" None row) as [time_cell|]; [|exact Hd].
  destruct (Oshiage.cell_times time_cell) as [|t times] eqn:E; [exact Hd|].
  apply all_values_set; [discriminate | exact Hd].
Qed.

(** C10.  In the three scripts a block without a time element appends
    nothing to the list of its hour, whatever its legends and class
    tokens. *)
Theorem C10_block_without_time :
  (forall wrap_time times,
     Bs4.find "span" (Some "time") wrap_time = None ->
     Keisei.block_trip wrap_time = None /\
     Keisei.append_block times wrap_time = times) /\
  (forall wrap_time times,
     Bs4.find "span" (Some "time") wrap_time = None ->
     Oshiage.block_trip wrap_time = None /\
     Oshiage.append_block times wrap_time = times) /\
  (forall re_legend re_spans re_time block times,
     re_time (snd block) = None ->
     Nishimagome.block_trip re_legend re_spans re_time block = None /\
     Nishimagome.append_block re_legend re_spans re_time times block
     = times).
Proof.
  split; [|split].
  - intros wrap_time times H.
    unfold Keisei.append_block, Keisei.block_trip. now rewrite H.
  - intros wrap_time times H.
    unfold Oshiage.append_block, Oshiage.block_trip. now rewrite H.
  - intros re_legend re_spans re_time block times H.
    unfold Nishimagome.append_block, Nishimagome.block_trip. now rewrite H.
Qed.

Lemma C10_block_without_time_witness :
  Keisei.block_trip (Examples.wrap_time_no_time "color-red" ["押"]) = None /\
  Oshiage.block_trip (Examples.wrap_time_no_time "color-red" ["押"]) = None /\
  Nishimagome.block_trip Examples.some_match Examples.no_spans
    Examples.no_match ("wrapTime color-red", "<span>品</span>") = None.
Proof.
  destruct C10_block_without_time as (Hk & Ho & Hn).
  split; [|split].
  - apply (Hk _ []). reflexivity.
  - apply (Ho _ []). reflexivity.
  - apply (Hn Examples.some_match Examples.no_spans Examples.no_match
              ("wrapTime color-red", "<span>品</span>") []).
    reflexivity.
Defined.

Example block_without_time_page :
  Keisei.extract_timetable
    (Examples.one_row_page
       [Examples.wrap_time_no_time "color-red" ["押"];
        Examples.wrap_time "color-red" ["押"] "07"]) =
  [("5", [mk_trip "07" "q" "d" ["押"]])].
Proof. reflexivity. Qed.

(** C7.  In the three scripts every hour of the extracted timetable has a
    non-empty list of trips; a row whose blocks append nothing leaves the
    timetable as it was; and [convert_to_nexttrain] emits no line for an
    hour that is absent or empty. *)
Theorem C7_registered_hours_nonempty :
  (forall soup,
     all_values (fun times => times <> []) (Keisei.extract_timetable soup)) /\
  (forall re_tbody re_rows re_train_blocks re_legend re_spans re_time html,
     all_values (fun times => times <> [])
       (Nishimagome.extract_timetable re_tbody re_rows re_train_blocks
                                      re_legend re_spans re_time html)) /\
  (forall soup,
     all_values (fun times => times <> [])
                (Oshiage.extract_timetable soup)) /\
  (forall timetable row time_cell,
     Bs4.find "td" None row = Some time_cell ->
     Keisei.cell_times time_cell = [] ->
     Keisei.process_row timetable row = timetable) /\
  (forall re_train_blocks re_legend re_spans re_time timetable row,
     Nishimagome.cell_times re_train_blocks re_legend re_spans re_time
                            (snd row) = [] ->
     Nishimagome.process_row re_train_blocks re_legend re_spans re_time
                             timetable row = timetable) /\
  (forall timetable row time_cell,
     Bs4.find "td" None row = Some time_cell ->
     Oshiage.cell_times time_cell = [] ->
     Oshiage.process_row timetable row = timetable) /\
  (forall timetable lines hour,
     Py.dict_get timetable hour = None \/
     Py.dict_get timetable hour = Some [] ->
     emit_hour timetable lines hour = lines).
Proof.
  split; [|split; [|split; [|split; [|split; [|split]]]]].
  - intros soup h times Hin.
    apply (keisei_timetable_invariant soup h times Hin).
  - intros re_tbody re_rows re_train_blocks re_legend re_spans re_time html
           h times Hin.
    apply (nishimagome_timetable_invariant _ _ _ _ _ _ _ h times Hin).
  - apply oshiage_timetable_invariant.
  - intros timetable row time_cell Htd Hempty. unfold Keisei.process_row.
    destruct (Bs4.find "th" None row); [|reflexivity].
    now rewrite Htd, Hempty.
  - intros re_train_blocks re_legend re_spans re_time timetable row Hempty.
    unfold Nishimagome.process_row. now rewrite Hempty.
  - intros timetable row time_cell Htd Hempty. unfold Oshiage.process_row.
    destruct (Bs4.find "th" None row); [|reflexivity].
    now rewrite Htd, Hempty.
  - intros timetable lines hour [H|H]; unfold emit_hour; now rewrite H.
Qed.

Lemma C7_registered_hours_nonempty_witness :
  Keisei.process_row [] (Bs4.Tag "tr" []
    [Bs4.Tag "th" [] [Bs4.NavigableString "5"];
     Bs4.Tag "td" [] [Examples.placeholder_block]]) = [] /\
  emit_hour [("5", [])] ["x"] "5" = ["x"].
Proof.
  destruct C7_registered_hours_nonempty as (_ & _ & _ & Hk & _ & _ & He).
  split.
  - apply (Hk [] _ (Bs4.Tag "td" [] [Examples.placeholder_block]));
      reflexivity.
  - apply He. right. reflexivity.
Defined.

(* ================================================================= *)
(** ** The code tables *)

Lemma codes_defined_by_check (keys values : list string) :
  forallb (fun c => Py.in_list c keys) values = true ->
  Forall (fun c => In c keys) values.
Proof.
  intros H. apply Forall_forall. intros c Hc.
  rewrite forallb_forall in H. apply in_list_In. now apply H.
Qed.

Lemma keisei_map_codes_defined :
  Forall (fun c => In c (Py.dict_keys Keisei.destination_definitions))
         (Py.dict_values Keisei.destination_map).
Proof. apply codes_defined_by_check. reflexivity. Qed.

Lemma oshiage_map_codes_defined :
  Forall (fun c => In c (Py.dict_keys Oshiage.destination_definitions))
         (Py.dict_values Oshiage.destination_map).
Proof. apply codes_defined_by_check. reflexivity. Qed.

Lemma nishimagome_map_codes_defined :
  Forall (fun c => In c (Py.dict_keys Nishimagome.destination_definitions))
         (Py.dict_values Nishimagome.destination_map).
Proof. apply codes_defined_by_check. reflexivity. Qed.

Lemma first_match_defined (symbols : list string) (dmap : Py.dict string)
      (keys : list string) (default : string) (legends : list string) :
  Forall (fun c => In c keys) (Py.dict_values dmap) ->
  In default keys ->
  In (first_match_destination symbols dmap default legends) keys.
Proof.
  intros Hmap Hdef.
  destruct (first_match_range symbols dmap default legends) as [->|H];
    [assumption|].
  rewrite Forall_forall in Hmap. now apply Hmap.
Qed.

Lemma last_match_defined (legends : list string) :
  In (last_match_destination legends)
     (Py.dict_keys Nishimagome.destination_definitions).
Proof.
  assert (Hf : In "f" (Py.dict_keys Nishimagome.destination_definitions))
    by (apply in_list_In; reflexivity).
  assert (Hg : In "g" (Py.dict_keys Nishimagome.destination_definitions))
    by (apply in_list_In; reflexivity).
  unfold last_match_destination.
  destruct (find nm_name (rev legends)) as [g|].
  - destruct (Py.dict_get Nishimagome.destination_map g) as [code|] eqn:E;
      [|exact Hf].
    pose proof nishimagome_map_codes_defined as H.
    rewrite Forall_forall in H. apply H. eapply dict_get_value. exact E.
  - destruct (find nm_track (rev legends)) as [g|]; [|exact Hf].
    unfold track_code. destruct (String.eqb g "①"); assumption.
Qed.

(** C8.  In each script the keys of [destination_definitions] contain
    every value of [destination_map], the default destination and, in
    the Nishimagome script, the two track codes; hence the destination
    computed for any block has a definition line. *)
Theorem C8_destination_codes_defined :
  (Forall (fun c => In c (Py.dict_keys Keisei.destination_definitions))
          (Py.dict_values Keisei.destination_map) /\
   In Keisei.default_destination
      (Py.dict_keys Keisei.destination_definitions) /\
   forall wrap_time,
     In (Keisei.block_destination wrap_time)
        (Py.dict_keys Keisei.destination_definitions)) /\
  (Forall (fun c => In c (Py.dict_keys Nishimagome.destination_definitions))
          (Py.dict_values Nishimagome.destination_map) /\
   In Nishimagome.default_destination
      (Py.dict_keys Nishimagome.destination_definitions) /\
   In "f" (Py.dict_keys Nishimagome.destination_definitions) /\
   In "g" (Py.dict_keys Nishimagome.destination_definitions) /\
   forall re_legend re_spans block,
     In (Nishimagome.block_destination re_legend re_spans block)
        (Py.dict_keys Nishimagome.destination_definitions)) /\
  (Forall (fun c => In c (Py.dict_keys Oshiage.destination_definitions))
          (Py.dict_values Oshiage.destination_map) /\
   In Oshiage.default_destination
      (Py.dict_keys Oshiage.destination_definitions) /\
   forall wrap_time,
     In (Oshiage.block_destination wrap_time)
        (Py.dict_keys Oshiage.destination_definitions)).
Proof.
  assert (Hk : In Keisei.default_destination
                  (Py.dict_keys Keisei.destination_definitions))
    by (apply in_list_In; reflexivity).
  assert (Ho : In Oshiage.default_destination
                  (Py.dict_keys Oshiage.destination_definitions))
    by (apply in_list_In; reflexivity).
  split; [|split].
  - split; [apply keisei_map_codes_defined|]. split; [exact Hk|].
    intros wrap_time. unfold Keisei.block_destination.
    rewrite keisei_scan_first_match.
    apply first_match_defined;
      [apply keisei_map_codes_defined | exact Hk].
  - split; [apply nishimagome_map_codes_defined|].
    split; [apply in_list_In; reflexivity|].
    split; [apply in_list_In; reflexivity|].
    split; [apply in_list_In; reflexivity|].
    intros re_legend re_spans block. unfold Nishimagome.block_destination.
    rewrite nishimagome_resolve_last_match. apply last_match_defined.
  - split; [apply oshiage_map_codes_defined|]. split; [exact Ho|].
    intros wrap_time. unfold Oshiage.block_destination.
    destruct (Bs4.find "div" (Some "wrapLegend") wrap_time); [|exact Ho].
    rewrite oshiage_scan_first_match.
    apply first_match_defined;
      [apply oshiage_map_codes_defined | exact Ho].
Qed.

(* ================================================================= *)
(** ** Sorting *)

Section SortFacts.

Context {A : Type} (le : A -> A -> bool).

Lemma insert_perm (x : A) (l : list A) :
  Permutation (x :: l) (Py.insert le x l).
Proof.
  induction l as [|y l IH]; simpl; [reflexivity|].
  destruct (le x y); [reflexivity|].
  rewrite perm_swap. now apply perm_skip.
Qed.

Lemma sorted_perm (l : list A) : Permutation l (Py.sorted le l).
Proof.
  induction l as [|x l IH]; simpl; [constructor|].
  rewrite <- insert_perm. now apply perm_skip.
Qed.

End SortFacts.

Section SortByKey.

Variable key : string -> Z.

Lemma insert_key_sorted (x : string) (l : list string) :
  StronglySorted (key_le key) l ->
  StronglySorted (key_le key)
                 (Py.insert (fun a b => (key a <=? key b)%Z) x l).
Proof.
  induction 1 as [|y l Hl IH Hy]; simpl.
  - repeat constructor.
  - destruct (key x <=? key y)%Z eqn:E.
    + apply Z.leb_le in E. constructor.
      * now constructor.
      * constructor; [exact E|].
        rewrite Forall_forall in *. intros z Hz.
        unfold key_le in *. specialize (Hy z Hz). lia.
    + apply Z.leb_gt in E. constructor; [exact IH|].
      rewrite Forall_forall in *. intros z Hz.
      apply (Permutation_in _ (Permutation_sym (insert_perm _ x l))) in Hz.
      destruct Hz as [<-|Hz]; [unfold key_le; lia | now apply Hy].
Qed.

Lemma sorted_key_sorted (l : list string) :
  StronglySorted (key_le key) (Py.sorted_key key l).
Proof.
  induction l as [|x l IH]; simpl; [constructor|].
  now apply insert_key_sorted.
Qed.

Lemma sorted_key_perm (l : list string) :
  Permutation l (Py.sorted_key key l).
Proof. apply sorted_perm. Qed.




End SortByKey.

(* ================================================================= *)
(** ** [convert_to_nexttrain] as a list of lines *)

Lemma fold_left_append {X} (f : X -> list string)
      (step : list string -> X -> list string) :
  (forall acc x, step acc x = acc ++ f x) ->
  forall l init, fold_left step l init = init ++ flat_map f l.
Proof.
  intros Hstep. induction l as [|x l IH]; simpl; intros init.
  - now rewrite app_nil_r.
  - rewrite IH, Hstep. now rewrite app_assoc.
Qed.

Lemma flat_map_singleton {X Y} (f : X -> Y) (l : list X) :
  flat_map (fun x => [f x]) l = map f l.
Proof. induction l as [|x l IH]; simpl; congruence. Qed.

Lemma emit_entries (times : list trip) :
  fold_left emit_entry times [] = map entry times.
Proof.
  rewrite (fold_left_append (fun t => [entry t])); [|reflexivity].
  apply flat_map_singleton.
Qed.

Lemma emit_hour_line (timetable : timetable_t) (lines : list string)
      (hour : string) :
  emit_hour timetable lines hour = lines ++ hour_line timetable hour.
Proof.
  unfold emit_hour, hour_line.
  destruct (Py.dict_get timetable hour) as [[|t ts]|];
    try (now rewrite app_nil_r).
  now rewrite emit_entries.
Qed.

(* ================================================================= *)
(** ** The title line *)



(* ================================================================= *)
(** ** Missing anchors *)

(** C6.  [extract_station_info] of timetable_converter.py raises on a
    page whose active direction tab holds no anchor: [find('a')] returns
    [None] and its [text] is read without a test.  [parse_html] calls it
    first and raises as well, although the timetable of the same page is
    extracted without error. *)
Theorem C6_missing_anchor_raises :
  Keisei.extract_station_info Examples.page_without_anchor
  = Raise AttributeError /\
  Keisei.parse_html Examples.page_without_anchor = Raise AttributeError /\
  Keisei.extract_timetable Examples.page_without_anchor = [] /\
  Keisei.extract_legends Examples.page_without_anchor = mk_legends [] [] [].
Proof. repeat split. Qed.

(** X1.  [extract_station_info] of timetable_converter.py raises exactly
    when the active direction tab or the active day tab of the page has
    no anchor below it; on every other page it returns. *)
Theorem X1_station_info_raises (soup : Bs4.PageElement) :
  (exists e, Keisei.extract_station_info soup = Raise e) <->
  (exists li,
     Bs4.find "li" (Some "directionNavi__item is-active") soup = Some li /\
     Bs4.find "a" None li = None) \/
  (exists li,
     Bs4.find "li" (Some "dayNavi__item is-active") soup = Some li /\
     Bs4.find "a" None li = None).
Proof.
  unfold Keisei.extract_station_info. cbv zeta.
  destruct (Bs4.find "li" (Some "directionNavi__item is-active") soup)
    as [dli|]; [destruct (Bs4.find "a" None dli) as [da|] eqn:Eda|];
    cbn [text_of bind];
    (destruct (Bs4.find "li" (Some "dayNavi__item is-active") soup)
       as [yli|]; [destruct (Bs4.find "a" None yli) as [ya|] eqn:Eya|]);
    cbn [text_of bind]; split;
    try (intros [e H]; discriminate H);
    try (intros [(li & [= <-] & H)|(li & [= <-] & H)]; congruence);
    try (intros [(li & H & _)|(li & H & _)]; discriminate H);
    try (intros _; eexists; reflexivity);
    try (intros _; left; eexists; split; [reflexivity | assumption]);
    try (intros _; right; eexists; split; [reflexivity | assumption]).
Qed.

(* ================================================================= *)
(** ** Station information and the day header *)

Lemma keisei_station_day_type (soup : Bs4.PageElement) (st : station_info) :
  Keisei.extract_station_info soup = Ok st ->
  day_type st =
  match Bs4.find "li" (Some "dayNavi__item is-active") soup with
  | Some li =>
      match Bs4.find "a" None li with
      | Some a => Keisei.classify_day (Py.strip (Bs4.text a))
      | None => ""
      end
  | None => ""
  end.
Proof.
  unfold Keisei.extract_station_info. cbv zeta.
  destruct (Bs4.find "li" (Some "directionNavi__item is-active") soup)
    as [dli|]; [destruct (Bs4.find "a" None dli) as [da|]|];
    cbn [text_of bind]; try discriminate;
    (destruct (Bs4.find "li" (Some "dayNavi__item is-active") soup)
       as [yli|]; [destruct (Bs4.find "a" None yli) as [ya|]|]);
    cbn [text_of bind]; try discriminate;
    intros [= <-]; reflexivity.
Qed.

Lemma classify_day_weekday (day_text : string) :
  String.eqb (Keisei.classify_day day_text) "weekday"
  = Py.str_in "平日" day_text.
Proof.
  unfold Keisei.classify_day.
  destruct (Py.str_in "平日" day_text); [reflexivity|].
  destruct (Py.str_in "土曜" day_text || Py.str_in "休日" day_text);
    reflexivity.
Qed.

(** X2.  When [extract_station_info] of timetable_converter.py returns,
    [convert_to_nexttrain] writes the weekday header for the page exactly
    when the anchor of the active day tab contains the weekday token;
    every other page, also one without an active day tab or with an
    unknown day text, gets the holiday header. *)
Theorem X2_day_header_of_page (soup : Bs4.PageElement) (st : station_info) :
  Keisei.extract_station_info soup = Ok st ->
  (day_header st = "[MON][TUE][WED][THU][FRI]" <->
   exists li a,
     Bs4.find "li" (Some "dayNavi__item is-active") soup = Some li /\
     Bs4.find "a" None li = Some a /\
     Py.str_in "平日" (Py.strip (Bs4.text a)) = true) /\
  (day_header st <> "[MON][TUE][WED][THU][FRI]" ->
   day_header st = "[SAT][SUN][HOL]").
Proof.
  intros H. apply keisei_station_day_type in H.
  unfold day_header. rewrite H. clear H. split.
  - destruct (Bs4.find "li" (Some "dayNavi__item is-active") soup)
      as [li|]; [destruct (Bs4.find "a" None li) as [a|] eqn:Ea|].
    + rewrite classify_day_weekday.
      destruct (Py.str_in "平日" (Py.strip (Bs4.text a))) eqn:E; split.
      * intros _. exists li, a. auto.
      * reflexivity.
      * discriminate.
      * intros (li' & a' & [= <-] & Ha & Hs). congruence.
    + split; [discriminate|]. intros (li' & a' & [= <-] & Ha & _).
      congruence.
    + split; [discriminate|]. intros (li' & a' & Hli & _). discriminate.
  - destruct (String.eqb _ "weekday"); [congruence | reflexivity].
Qed.

Lemma X2_day_header_of_page_witness :
  day_header (mk_station "西馬込" "押上・京成線・北総線" "") =
  "[SAT][SUN][HOL]".
Proof.
  apply (X2_day_header_of_page (Examples.page_with_tabs "臨時ダイヤ")).
  - reflexivity.
  - vm_compute. discriminate.
Defined.

(* ================================================================= *)
(** ** The legend lists *)

Lemma bucket_of_fold {X} (b : bucket) (f : X -> list string)
      (step : legend_bundle -> X -> legend_bundle) :
  (forall L x, bucket_of b (step L x) = bucket_of b L ++ f x) ->
  forall xs L,
    bucket_of b (fold_left step xs L) = bucket_of b L ++ flat_map f xs.
Proof.
  intros Hstep. induction xs as [|x xs IH]; simpl; intros L.
  - now rewrite app_nil_r.
  - rewrite IH, Hstep. now rewrite app_assoc.
Qed.

(** One item added under a heading goes to the list of the heading and
    to no other. *)
Lemma add_legend_bucket (b : bucket) (head_text text : string)
      (L : legend_bundle) :
  bucket_of b
    (if Py.str_in "種別" head_text then
       mk_legends (train_types L ++ [text]) (destinations L) (connections L)
     else if Py.str_in "行先" head_text then
       mk_legends (train_types L) (destinations L ++ [text]) (connections L)
     else if Py.str_in "接続" head_text then
       mk_legends (train_types L) (destinations L) (connections L ++ [text])
     else L)
  = bucket_of b L ++ (if heading_is b head_text then [text] else []).
Proof.
  unfold heading_is, heading_bucket.
  destruct (Py.str_in "種別" head_text);
    [|destruct (Py.str_in "行先" head_text);
      [|destruct (Py.str_in "接続" head_text)]];
    destruct b; simpl; now rewrite ?app_nil_r.
Qed.

Lemma items_under_heading {X} (b : bucket) (head_text : string)
      (txt : X -> string) (items : list X) :
  flat_map (fun x => if heading_is b head_text then [txt x] else []) items
  = if heading_is b head_text then map txt items else [].
Proof.
  destruct (heading_is b head_text).
  - apply flat_map_singleton.
  - induction items; simpl; auto.
Qed.

Lemma keisei_process_section_bucket (b : bucket) (L : legend_bundle)
      (section : Bs4.PageElement) :
  bucket_of b (Keisei.process_section L section)
  = bucket_of b L ++ section_items b section.
Proof.
  unfold Keisei.process_section, section_items.
  destruct (Bs4.find "dt" (Some "time-legend__head") section) as [head|];
    [|now rewrite app_nil_r].
  rewrite (bucket_of_fold b
             (fun item => if heading_is b (Py.strip (Bs4.text head))
                          then [Py.strip (Bs4.text item)] else [])).
  - now rewrite items_under_heading.
  - intros L' item. apply add_legend_bucket.
Qed.

(** X3.  Each list returned by [extract_legends] of
    timetable_converter.py holds, in document order, the stripped texts
    of the items of the legend sections whose heading selects that list;
    a heading selects the first of train types, destinations,
    connections whose token it contains, and a section without heading
    or with another heading adds nothing. *)
Theorem X3_keisei_legend_lists (soup : Bs4.PageElement) (b : bucket) :
  bucket_of b (Keisei.extract_legends soup) =
  flat_map (section_items b)
           (Bs4.find_all "dl" (Some "time-legend") soup).
Proof.
  unfold Keisei.extract_legends.
  rewrite (bucket_of_fold b (section_items b));
    [|intros; apply keisei_process_section_bucket].
  destruct b; reflexivity.
Qed.

Lemma nishimagome_process_section_bucket re_head re_items
      (b : bucket) (L : legend_bundle) (section : string) :
  bucket_of b (Nishimagome.process_section re_head re_items L section)
  = bucket_of b L ++ re_section_items re_head re_items b section.
Proof.
  unfold Nishimagome.process_section, re_section_items.
  destruct (re_head section) as [g|]; [|now rewrite app_nil_r].
  rewrite (bucket_of_fold b
             (fun text => if heading_is b (Py.strip g)
                          then [Py.strip text] else [])).
  - now rewrite items_under_heading.
  - intros L' text. apply add_legend_bucket.
Qed.

(** X4.  The same holds of [extract_legends] of the Nishimagome script,
    for the sections, headings and items its searches return. *)
Theorem X4_nishimagome_legend_lists re_legend_sections re_head re_items
        (html_content : string) (b : bucket) :
  bucket_of b (Nishimagome.extract_legends re_legend_sections re_head
                                           re_items html_content) =
  flat_map (re_section_items re_head re_items b)
           (re_legend_sections html_content).
Proof.
  unfold Nishimagome.extract_legends.
  rewrite (bucket_of_fold b (re_section_items re_head re_items b));
    [|intros; apply nishimagome_process_section_bucket].
  destruct b; reflexivity.
Qed.

(* ================================================================= *)
(** ** Train-type codes *)

(** X5.  The train type computed for a block is a key of
    [train_type_definitions], in each of the three scripts: with the
    destination codes this gives every entry of the output a definition
    line for both of its codes. *)
Theorem X5_train_type_codes_defined :
  (forall wrap_time,
     In (Keisei.block_train_type wrap_time)
        (Py.dict_keys Keisei.train_type_definitions)) /\
  (forall re_legend re_spans block,
     In (Nishimagome.block_train_type re_legend re_spans block)
        (Py.dict_keys Nishimagome.train_type_definitions)) /\
  (forall wrap_time,
     In (Oshiage.block_train_type wrap_time)
        (Py.dict_keys Oshiage.train_type_definitions)).
Proof.
  split; [|split].
  - intros wrap_time.
    unfold Keisei.block_train_type, Keisei.resolve_train_type.
    repeat match goal with
           | |- context [if ?c then _ else _] => destruct c
           end; apply in_list_In; reflexivity.
  - intros re_legend re_spans block.
    unfold Nishimagome.block_train_type, Nishimagome.resolve_train_type.
    repeat match goal with
           | |- context [if ?c then _ else _] => destruct c
           end; apply in_list_In; reflexivity.
  - intros wrap_time.
    unfold Oshiage.block_train_type, Oshiage.resolve_train_type.
    repeat match goal with
           | |- context [if ?c then _ else _] => destruct c
           end; apply in_list_In; reflexivity.
Qed.

(* ================================================================= *)
(** ** The timetable as a dictionary *)

Lemma dict_get_set {V} (k h : string) (v : V) (d : Py.dict V) :
  Py.dict_get (Py.dict_set k v d) h =
  if String.eqb h k then Some v else Py.dict_get d h.
Proof.
  induction d as [|[k' v'] d IH]; simpl.
  - reflexivity.
  - destruct (String.eqb k k') eqn:E; simpl.
    + apply String.eqb_eq in E. subst k'.
      destruct (String.eqb h k); reflexivity.
    + rewrite IH. destruct (String.eqb h k') eqn:E'; [|reflexivity].
      apply String.eqb_eq in E'. subst k'.
      destruct (String.eqb h k) eqn:E''; [|reflexivity].
      apply String.eqb_eq in E''. subst k.
      now rewrite String.eqb_refl in E.
Qed.

Lemma dict_set_keys {V} (k : string) (v : V) (d : Py.dict V) :
  Py.dict_keys (Py.dict_set k v d) =
  if Py.in_list k (Py.dict_keys d) then Py.dict_keys d
  else Py.dict_keys d ++ [k].
Proof.
  induction d as [|[k' v'] d IH]; simpl; [reflexivity|].
  destruct (String.eqb k k'); simpl; [reflexivity|].
  rewrite IH. now destruct (Py.in_list k (Py.dict_keys d)).
Qed.

Lemma dict_set_NoDup {V} (k : string) (v : V) (d : Py.dict V) :
  NoDup (Py.dict_keys d) -> NoDup (Py.dict_keys (Py.dict_set k v d)).
Proof.
  intros H. rewrite dict_set_keys.
  destruct (Py.in_list k (Py.dict_keys d)) eqn:E; [exact H|].
  apply in_list_not_In in E.
  apply NoDup_rev in H. rewrite <- (rev_involutive (_ ++ [k])).
  apply NoDup_rev. rewrite rev_app_distr. simpl. constructor; [|exact H].
  now rewrite <- in_rev.
Qed.

Section DictLoop.

Context {V R : Type}.
Variable entry : R -> option (string * V).
Variable step : Py.dict V -> R -> Py.dict V.
Hypothesis step_entry :
  forall d r, step d r = match entry r with
                         | Some (k, v) => Py.dict_set k v d
                         | None => d
                         end.

(** A loop that assigns [d[k] = v] for some of its rows leaves under each
    key the value of the last row that assigned it. *)
Lemma dict_loop_get (h : string) (rows : list R) :
  forall d,
    Py.dict_get (fold_left step rows d) h =
    match last_binding h (map entry rows) with
    | Some v => Some v
    | None => Py.dict_get d h
    end.
Proof.
  unfold last_binding.
  induction rows as [|r rows IH]; intros d; [reflexivity|].
  cbn [fold_left map rev]. rewrite IH, find_app.
  destruct (find (binds h) (rev (map entry rows))) as [[[k v]|]|] eqn:E;
    try reflexivity.
  - apply find_some in E. destruct E as [_ E]. discriminate E.
  - cbn [find]. rewrite step_entry.
    destruct (entry r) as [[k v]|]; cbn [binds]; [|reflexivity].
    rewrite dict_get_set. destruct (String.eqb h k); reflexivity.
Qed.

Lemma dict_loop_NoDup (rows : list R) :
  forall d, NoDup (Py.dict_keys d) ->
            NoDup (Py.dict_keys (fold_left step rows d)).
Proof.
  induction rows as [|r rows IH]; intros d H; [exact H|].
  simpl. apply IH. rewrite step_entry.
  destruct (entry r) as [[k v]|]; [now apply dict_set_NoDup | exact H].
Qed.

End DictLoop.

Lemma keisei_cell_times (time_cell : Bs4.PageElement) :
  Keisei.cell_times time_cell =
  flat_map (fun wrap_time => option_list (Keisei.block_trip wrap_time))
           (Bs4.find_all "div" (Some "wrapTime") time_cell).
Proof.
  unfold Keisei.cell_times.
  assert (H : forall blocks times,
             fold_left Keisei.append_block blocks times =
             times ++ flat_map (fun wrap_time =>
                                  option_list (Keisei.block_trip wrap_time))
                               blocks).
  { induction blocks as [|b blocks IH]; simpl; intros times.
    - now rewrite app_nil_r.
    - rewrite IH. unfold Keisei.append_block.
      destruct (Keisei.block_trip b); simpl;
        [now rewrite <- app_assoc | reflexivity]. }
  now rewrite H.
Qed.

Lemma keisei_process_row (timetable : timetable_t)
      (row : Bs4.PageElement) :
  Keisei.process_row timetable row =
  match keisei_row row with
  | Some (k, v) => Py.dict_set k v timetable
  | None => timetable
  end.
Proof.
  unfold Keisei.process_row, keisei_row.
  destruct (Bs4.find "th" None row); [|reflexivity].
  destruct (Bs4.find "td" None row) as [time_cell|]; [|reflexivity].
  rewrite keisei_cell_times. now destruct (flat_map _ _).
Qed.

Lemma keisei_extract_fold (soup : Bs4.PageElement) :
  Keisei.extract_timetable soup =
  fold_left Keisei.process_row (keisei_rows soup) [].
Proof.
  unfold Keisei.extract_timetable, keisei_rows.
  destruct (Bs4.find "table" _ soup) as [table|]; [|reflexivity].
  now destruct (Bs4.find "tbody" None table).
Qed.

(** X6.  The timetable of timetable_converter.py holds, under an hour
    label, the trips of the last row with that stripped label that has a
    trip: the trips of its blocks with a time other than the placeholder,
    in document order.  A later row with the same label replaces the
    trips of an earlier one; a label no such row carries is absent. *)
Theorem X6_keisei_timetable_lookup (soup : Bs4.PageElement) (h : string) :
  Py.dict_get (Keisei.extract_timetable soup) h =
  last_binding h (map keisei_row (keisei_rows soup)).
Proof.
  rewrite keisei_extract_fold.
  rewrite (dict_loop_get keisei_row Keisei.process_row keisei_process_row).
  now destruct (last_binding h _).
Qed.

Example keisei_repeated_hour :
  Keisei.extract_timetable
    (Bs4.Tag "[document]" []
       [ Bs4.Tag "table" ["tt-table"]
           [ Bs4.Tag "tbody" []
               [ Bs4.Tag "tr" []
                   [ Bs4.Tag "th" [] [Bs4.NavigableString "5"];
                     Bs4.Tag "td" []
                       [Examples.wrap_time "color-red" ["押"] "07"] ];
                 Bs4.Tag "tr" []
                   [ Bs4.Tag "th" [] [Bs4.NavigableString " 5 "];
                     Bs4.Tag "td" []
                       [Examples.wrap_time "color-blue" ["空"] "31"] ] ] ] ])
  = [("5", [mk_trip "31" "n" "i" ["空"]])].
Proof. reflexivity. Qed.

(** X7.  No hour label occurs twice among the keys of an extracted
    timetable, in each of the three scripts. *)
Theorem X7_timetable_keys_distinct :
  (forall soup, NoDup (Py.dict_keys (Keisei.extract_timetable soup))) /\
  (forall re_tbody re_rows re_train_blocks re_legend re_spans re_time html,
     NoDup (Py.dict_keys
              (Nishimagome.extract_timetable re_tbody re_rows
                 re_train_blocks re_legend re_spans re_time html))) /\
  (forall soup, NoDup (Py.dict_keys (Oshiage.extract_timetable soup))).
Proof.
  split; [|split].
  - intros soup. rewrite keisei_extract_fold.
    apply (dict_loop_NoDup keisei_row Keisei.process_row
                           keisei_process_row).
    constructor.
  - intros re_tbody re_rows re_train_blocks re_legend re_spans re_time html.
    unfold Nishimagome.extract_timetable.
    destruct (re_tbody html) as [tbody|]; [|constructor].
    apply (dict_loop_NoDup
             (fun row =>
                match Nishimagome.cell_times re_train_blocks re_legend
                        re_spans re_time (snd row) with
                | [] => None
                | times => Some (fst row, times)
                end)); [|constructor].
    intros d row. unfold Nishimagome.process_row.
    now destruct (Nishimagome.cell_times _ _ _ _ (snd row)).
  - intros soup. unfold Oshiage.extract_timetable.
    destruct (Bs4.find "table" _ soup) as [table|]; [|constructor].
    destruct (Bs4.find "tbody" None table) as [tbody|]; [|constructor].
    apply (dict_loop_NoDup
             (fun row =>
                match Bs4.find "th" None row, Bs4.find "td" None row with
                | Some hour_elem, Some time_cell =>
                    match Oshiage.cell_times time_cell with
                    | [] => None
                    | times => Some (Py.strip (Bs4.text hour_elem), times)
                    end
                | _, _ => None
                end)); [|constructor].
    intros d row. unfold Oshiage.process_row.
    destruct (Bs4.find "th" None row); [|reflexivity].
    destruct (Bs4.find "td" None row) as [time_cell|]; [|reflexivity].
    now destruct (Oshiage.cell_times time_cell).
Qed.

(* ================================================================= *)
(** ** One line per registered hour *)

Lemma dict_get_of_key {V} (d : Py.dict V) (h : string) :
  In h (Py.dict_keys d) -> exists v, Py.dict_get d h = Some v /\ In (h, v) d.
Proof.
  induction d as [|[k v] d IH]; simpl; [intros []|].
  intros H. destruct (String.eqb h k) eqn:E.
  - apply String.eqb_eq in E. subst k. exists v. auto.
  - destruct H as [H|H]; [subst k; now rewrite String.eqb_refl in E|].
    destruct (IH H) as (v' & Hget & Hin). exists v'. auto.
Qed.

Lemma hour_lines_length (timetable : timetable_t) (hours : list string) :
  all_values (fun times => times <> []) timetable ->
  (forall h, In h hours -> In h (Py.dict_keys timetable)) ->
  length (flat_map (hour_line timetable) hours) = length hours.
Proof.
  intros Hall. induction hours as [|h hours IH]; intros Hkeys;
    [reflexivity|].
  cbn [flat_map]. rewrite length_app, IH by (intros; apply Hkeys; now right).
  destruct (dict_get_of_key timetable h (Hkeys h (or_introl eq_refl)))
    as (v & Hget & Hin).
  unfold hour_line. rewrite Hget.
  destruct v as [|t ts]; [now apply Hall in Hin | reflexivity].
Qed.

(* ================================================================= *)
(** ** The separator never reaches the title *)

Section Separator.

Variables (sep : string) (f : ascii) (rest : string).
Hypothesis f_not_in_sep : occurs f sep = false.
Hypothesis sep_not_in_suffix : Py.str_in sep (String f rest) = false.

Lemma split_first_is_prefix (s : string) :
  exists r, s = (Py.split_first sep s ++ r)%string.
Proof.
  induction s as [|c s IH].
  - exists EmptyString. unfold Py.split_first.
    now destruct (prefix sep "").
  - cbn [Py.split_first]. destruct (prefix sep (String c s)).
    + now exists (String c s).
    + destruct IH as [r Hr]. exists r. cbn [append]. now rewrite <- Hr.
Qed.

(** A string that is not a prefix of [t ++ r] is not a prefix of [t]
    followed by a character it does not contain. *)
Lemma prefix_cut (u : string) :
  occurs f u = false ->
  forall t r,
    prefix u (t ++ r) = false ->
    prefix u (t ++ String f rest) = false.
Proof.
  induction u as [|a u IH]; intros Hocc t r H.
  - destruct (t ++ r)%string; discriminate H.
  - cbn [occurs] in Hocc. apply orb_false_iff in Hocc.
    destruct Hocc as [Hfa Hocc].
    destruct t as [|c t]; cbn [append prefix].
    + destruct (ascii_dec a f) as [->|]; [|reflexivity].
      now rewrite Ascii.eqb_refl in Hfa.
    + cbn [append prefix] in H.
      destruct (ascii_dec a c); [|reflexivity].
      now apply (IH Hocc t r).
Qed.

Lemma split_first_no_sep (d : string) :
  Py.str_in sep (Py.split_first sep d ++ String f rest) = false.
Proof.
  induction d as [|c d IH].
  - unfold Py.split_first. now destruct (prefix sep "").
  - destruct (prefix sep (String c d)) eqn:E.
    + cbn [Py.split_first]. now rewrite E.
    + pose proof (split_first_is_prefix (String c d)) as [r Hr].
      assert (Hp : prefix sep (Py.split_first sep (String c d)
                               ++ String f rest) = false).
      { apply (prefix_cut sep f_not_in_sep _ r). now rewrite <- Hr. }
      cbn [Py.split_first] in *. rewrite E in *.
      cbn [append Py.str_in] in *. now rewrite Hp.
Qed.

End Separator.

(** X9.  The direction written in the title never contains the
    separator: a direction holding it is cut before its first occurrence,
    and the suffix added brings none in.  Reducing a direction twice
    therefore changes nothing more. *)
Theorem X9_title_direction_no_separator (d : string) :
  Py.str_in "・" (title_direction d) = false /\
  title_direction (title_direction d) = title_direction d.
Proof.
  assert (H : Py.str_in "・" (title_direction d) = false).
  { unfold title_direction. destruct (Py.str_in "・" d) eqn:E; [|exact E].
    apply (split_first_no_sep "・" "230"%char
             (String "150"%char (String "185"%char "面")));
      reflexivity. }
  split; [exact H|].
  unfold title_direction at 1. now rewrite H.
Qed.

(* ================================================================= *)
(** ** Names of destinations and their codes *)

Lemma table_check {X} (P : X -> Prop) (check : X -> bool) (table : list X) :
  (forall x, check x = true -> P x) ->
  forallb check table = true ->
  forall x, In x table -> P x.
Proof.
  intros Hc Hall x Hx. rewrite forallb_forall in Hall. auto.
Qed.

(** X11.  A block whose only legend is the full name of a destination of
    [destination_definitions] is given the code of that destination, in
    timetable_converter.py and in the Oshiage-direction script; in the
    Nishimagome script this holds of the full name and of the
    abbreviation of every destination but the two track codes, whose
    names are not keys of the destination map. *)
Theorem X11_destination_names_round_trip (code name abbr : string) :
  (In (code, (name, abbr)) Keisei.destination_definitions ->
   Keisei.scan_destination [name] Keisei.default_destination = code) /\
  (In (code, (name, abbr)) Oshiage.destination_definitions ->
   Oshiage.scan_destination [name] Oshiage.default_destination = code) /\
  (In (code, (name, abbr)) Nishimagome.destination_definitions ->
   code <> "f" -> code <> "g" ->
   Nishimagome.resolve_destination [name] = code /\
   Nishimagome.resolve_destination [abbr] = code).
Proof.
  split; [|split].
  - intros H.
    apply (table_check
             (fun def : string * (string * string) =>
                Keisei.scan_destination [fst (snd def)]
                  Keisei.default_destination = fst def)
             (fun def =>
                String.eqb
                  (Keisei.scan_destination [fst (snd def)]
                     Keisei.default_destination) (fst def))
             Keisei.destination_definitions
             (fun def => proj1 (String.eqb_eq _ _)) eq_refl _ H).
  - intros H.
    apply (table_check
             (fun def : string * (string * string) =>
                Oshiage.scan_destination [fst (snd def)]
                  Oshiage.default_destination = fst def)
             (fun def =>
                String.eqb
                  (Oshiage.scan_destination [fst (snd def)]
                     Oshiage.default_destination) (fst def))
             Oshiage.destination_definitions
             (fun def => proj1 (String.eqb_eq _ _)) eq_refl _ H).
  - intros H Hf Hg.
    pose (P := fun def : string * (string * string) =>
                 fst def = "f" \/ fst def = "g" \/
                 (Nishimagome.resolve_destination [fst (snd def)] = fst def /\
                  Nishimagome.resolve_destination [snd (snd def)] = fst def)).
    pose (check := fun def : string * (string * string) =>
                 String.eqb (fst def) "f" || String.eqb (fst def) "g" ||
                 (String.eqb
                    (Nishimagome.resolve_destination [fst (snd def)])
                    (fst def) &&
                  String.eqb
                    (Nishimagome.resolve_destination [snd (snd def)])
                    (fst def))).
    assert (Hc : P (code, (name, abbr))).
    { apply (table_check P check Nishimagome.destination_definitions);
        [|reflexivity|exact H].
      intros def Hdef. unfold check in Hdef. unfold P.
      apply orb_true_iff in Hdef. destruct Hdef as [Hdef|Hdef].
      - apply orb_true_iff in Hdef.
        destruct Hdef as [E|E]; apply String.eqb_eq in E; auto.
      - apply andb_true_iff in Hdef. destruct Hdef as [E1 E2].
        apply String.eqb_eq in E1, E2. auto. }
    unfold P in Hc. simpl in Hc.
    destruct Hc as [?|[?|?]]; [contradiction..|assumption].
Qed.

Lemma X11_destination_names_round_trip_witness :
  Keisei.scan_destination ["成田空港"] Keisei.default_destination = "i" /\
  Oshiage.scan_destination ["成田空港"] Oshiage.default_destination = "h" /\
  Nishimagome.resolve_destination ["逗子・葉山"] = "l" /\
  Nishimagome.resolve_destination ["逗"] = "l".
Proof.
  split; [|split].
  - apply (proj1 (X11_destination_names_round_trip "i" "成田空港" "空")).
    simpl. tauto.
  - apply (proj1 (proj2
             (X11_destination_names_round_trip "h" "成田空港" "空"))).
    simpl. tauto.
  - apply (proj2 (proj2
             (X11_destination_names_round_trip "l" "逗子・葉山" "逗"))).
    + simpl. tauto.
    + discriminate.
    + discriminate.
Defined.

(* ================================================================= *)
(** ** The arguments of [main] *)

Lemma removelast_nil_inv {X} (x : X) (l : list X) :
  removelast (x :: l) = [] -> l = [].
Proof. destruct l; [reflexivity | discriminate]. Qed.

(** X13.  When [main] of timetable_converter.py converts, the pages are
    never an empty list and, followed by the output file if there is one,
    they are the arguments in their order; the output file is the last
    argument exactly when that does not end in ".html".  [main] stops
    with the missing-file message exactly when its only argument is
    "--analyze" or a single name that does not end in ".html". *)
Theorem X13_main_arguments (args : list string) :
  (forall html_files output_file,
     Keisei.main args = Keisei.Convert html_files output_file ->
     html_files <> [] /\
     args = html_files ++ output_args output_file /\
     match output_file with
     | Some o => o = last args "" /\ Py.endswith o ".html" = false
     | None => Py.endswith (last args "") ".html" = true
     end) /\
  (Keisei.main args = Keisei.MissingHtmlFile <->
   args = ["--analyze"] \/
   exists x, args = [x] /\ x <> "--analyze" /\
             Py.endswith x ".html" = false).
Proof.
  destruct args as [|first rest].
  { split; [intros ? ? H; discriminate H|].
    split; [intros H; discriminate H|].
    intros [H|(x & H & _)]; discriminate H. }
  unfold Keisei.main.
  destruct (String.eqb first "--analyze") eqn:Ea.
  { apply String.eqb_eq in Ea. subst first.
    split; [intros ? ? H; destruct rest; discriminate H|].
    destruct rest as [|f rest]; split; intros H.
    - now left.
    - reflexivity.
    - discriminate H.
    - destruct H as [H|(x & H & _)]; discriminate H. }
  apply String.eqb_neq in Ea.
  destruct (Py.endswith (last (first :: rest) "") ".html") eqn:Ee.
  - split.
    + intros html_files output_file [= <- <-].
      split; [discriminate|]. split; [|first [reflexivity | exact Ee]].
      unfold output_args, option_list. symmetry. apply app_nil_r.
    + split; [intros H; discriminate H|].
      intros [[= H _]|(x & [= Hx1 Hx2] & _ & Hx)];
        [now elim Ea | subst; simpl in Ee; congruence].
  - destruct (removelast (first :: rest)) as [|a l] eqn:Er.
    + apply removelast_nil_inv in Er. subst rest.
      split; [intros ? ? H; discriminate H|].
      split; [|reflexivity].
      intros _. right. exists first. auto.
    + split.
      * intros html_files output_file [= <- <-].
        split; [discriminate|]. split; [|split; first [reflexivity | exact Ee]].
        rewrite <- Er. unfold output_args, option_list.
        apply (@app_removelast_last _ (first :: rest) ""). discriminate.
      * split; [intros H; discriminate H|].
        intros [[= H _]|(x & [= Hx1 Hx2] & _)];
          [now elim Ea | subst; discriminate Er].
Qed.

Lemma X13_main_arguments_witness :
  ["A18SD.html"; "A18SH.html"] <> [] /\
  ["A18SD.html"; "A18SH.html"; "out.txt"] =
  ["A18SD.html"; "A18SH.html"] ++ output_args (Some "out.txt") /\
  "out.txt" = last ["A18SD.html"; "A18SH.html"; "out.txt"] "" /\
  Py.endswith "out.txt" ".html" = false.
Proof.
  pose proof (proj1 (X13_main_arguments
                       ["A18SD.html"; "A18SH.html"; "out.txt"])
                ["A18SD.html"; "A18SH.html"] (Some "out.txt") eq_refl)
    as (H1 & H2 & H3 & H4).
  exact (conj H1 (conj H2 (conj H3 H4))).
Defined.

(* ================================================================= *)
(** ** The name of the output file *)

Lemma append_empty_r (s : string) : (s ++ "")%string = s.
Proof. induction s as [|c s IH]; simpl; congruence. Qed.

Lemma last_char_app (s t : string) :
  t <> EmptyString -> Py.last_char (s ++ t) = Py.last_char t.
Proof.
  intros Ht. induction s as [|c s IH]; [reflexivity|].
  cbn [append Py.last_char]. rewrite IH.
  destruct (s ++ t)%string eqn:E; [|reflexivity].
  destruct s; [simpl in E; contradiction | discriminate E].
Qed.

Lemma drop_last_app (s t : string) :
  t <> EmptyString -> Py.drop_last (s ++ t) = (s ++ Py.drop_last t)%string.
Proof.
  intros Ht. induction s as [|c s IH]; [reflexivity|].
  cbn [append Py.drop_last]. rewrite IH.
  destruct (s ++ t)%string eqn:E; [|reflexivity].
  destruct s; [simpl in E; contradiction | discriminate E].
Qed.

(** X14.  The Nishimagome [main] names the output after the first page:
    the weekday page and the holiday page of a station, whose base names
    are a stem followed by SD and by SH, give the same file,
    output_stem.txt; a name that ends in none of D, H and S is kept
    whole. *)
Theorem X14_auto_output_file :
  (forall stem,
     Nishimagome.auto_output_file (stem ++ "SD")
     = ("output_" ++ stem ++ ".txt")%string /\
     Nishimagome.auto_output_file (stem ++ "SH")
     = ("output_" ++ stem ++ ".txt")%string) /\
  (forall name,
     Py.last_char_in name ["D"%char; "H"%char; "S"%char] = false ->
     Nishimagome.auto_output_file name
     = ("output_" ++ name ++ ".txt")%string).
Proof.
  split.
  - intros stem. unfold Nishimagome.auto_output_file, Py.last_char_in.
    rewrite !last_char_app, !drop_last_app by discriminate.
    cbn [Py.last_char Py.drop_last existsb Ascii.eqb orb].
    cbn. rewrite !last_char_app, !drop_last_app by discriminate.
    cbn. now rewrite !append_empty_r.
  - intros name H.
    assert (H1 : Py.last_char_in name ["D"%char; "H"%char] = false
                 /\ Py.last_char_in name ["S"%char] = false).
    { unfold Py.last_char_in in *.
      destruct (Py.last_char name) as [c|]; [|auto].
      cbn [existsb] in *.
      apply orb_false_iff in H. destruct H as [Hd H].
      apply orb_false_iff in H. destruct H as [Hh H].
      now rewrite Hd, Hh, H. }
    destruct H1 as [H1 H2].
    unfold Nishimagome.auto_output_file. cbv zeta.
    rewrite H1. now rewrite H2.
Qed.

Lemma X14_auto_output_file_witness :
  Nishimagome.auto_output_file "A18" = "output_A18.txt".
Proof.
  apply (proj2 X14_auto_output_file "A18"). reflexivity.
Defined.

Example auto_output_file_weekday :
  Nishimagome.auto_output_file "A18SD" = "output_A18.txt".
Proof. reflexivity. Qed.

(* ================================================================= *)
(** ** Sorting with a key that may raise *)

Section SortedByKey.

Variable key : string -> result Z.

Lemma decorate_ok (xs : list string) :
  (forall x, In x xs -> exists v, key x = Ok v) ->
  Py.decorate key xs = Ok (map (fun x => (key_value key x, x)) xs).
Proof.
  induction xs as [|x xs IH]; intros H; [reflexivity|].
  cbn [Py.decorate map].
  destruct (H x (or_introl eq_refl)) as [v Hv].
  unfold key_value at 1. rewrite Hv. cbn [bind].
  rewrite IH by (intros y Hy; apply H; now right). reflexivity.
Qed.

Lemma decorate_raises (xs : list string) :
  (exists e, Py.decorate key xs = Raise e) <-> Exists (key_raises key) xs.
Proof.
  induction xs as [|x xs IH]; cbn [Py.decorate].
  - split; [intros [e H]; discriminate H | intros H; inversion H].
  - destruct (key x) as [v|e] eqn:E; cbn [bind].
    + destruct (Py.decorate key xs) as [d|e] eqn:Ed; cbn [bind].
      * split; [intros [e H]; discriminate H|].
        intros H. inversion H as [? ? [e He]|? ? H']; subst;
          [congruence|]. apply IH in H'. destruct H' as [e He].
        discriminate He.
      * split; [intros _; right; apply IH; now exists e|].
        intros _. now exists e.
    + split; [intros _; left; now exists e | intros _; now exists e].
Qed.

Lemma decorate_ok_inv (xs : list string) (d : list (Z * string)) :
  Py.decorate key xs = Ok d ->
  forall x, In x xs -> exists v, key x = Ok v.
Proof.
  revert d. induction xs as [|x xs IH]; intros d H y Hy; [destruct Hy|].
  cbn [Py.decorate] in H. destruct (key x) as [v|] eqn:E; [|discriminate].
  cbn [bind] in H.
  destruct (Py.decorate key xs) as [d'|] eqn:Ed; [|discriminate].
  destruct Hy as [<-|Hy]; [now exists v | now apply (IH d')].
Qed.

(** Sorting the decorated list and dropping the keys is sorting the
    elements by their keys. *)
Lemma insert_decorated (k : string -> Z) (x : string)
      (d : list (Z * string)) :
  Forall (fun p => fst p = k (snd p)) d ->
  map snd (Py.insert (fun a b : Z * string => (fst a <=? fst b)%Z)
                     (k x, x) d)
  = Py.insert (fun a b => (k a <=? k b)%Z) x (map snd d) /\
  Forall (fun p => fst p = k (snd p))
         (Py.insert (fun a b : Z * string => (fst a <=? fst b)%Z)
                    (k x, x) d).
Proof.
  induction 1 as [|p d Hp Hd IH]; cbn [Py.insert map].
  - split; [reflexivity | now repeat constructor].
  - cbn [fst]. rewrite Hp.
    destruct (k x <=? k (snd p))%Z.
    + split; [reflexivity | now repeat constructor].
    + destruct IH as [IH1 IH2]. cbn [map]. rewrite IH1.
      split; [reflexivity | now constructor].
Qed.

Lemma sorted_decorated (k : string -> Z) (xs : list string) :
  map snd (Py.sorted (fun a b : Z * string => (fst a <=? fst b)%Z)
                     (map (fun x => (k x, x)) xs))
  = Py.sorted_key k xs /\
  Forall (fun p => fst p = k (snd p))
         (Py.sorted (fun a b : Z * string => (fst a <=? fst b)%Z)
                    (map (fun x => (k x, x)) xs)).
Proof.
  induction xs as [|x xs [IH1 IH2]]; [split; [reflexivity | constructor]|].
  cbn [map].
  change (Py.sorted (fun a b : Z * string => (fst a <=? fst b)%Z)
                    ((k x, x) :: map (fun x => (k x, x)) xs))
    with (Py.insert (fun a b : Z * string => (fst a <=? fst b)%Z) (k x, x)
            (Py.sorted (fun a b : Z * string => (fst a <=? fst b)%Z)
                       (map (fun x => (k x, x)) xs))).
  destruct (insert_decorated k x _ IH2) as [H1 H2].
  split; [|exact H2]. rewrite H1, IH1. reflexivity.
Qed.

Lemma sorted_by_key_ok (xs : list string) :
  (forall x, In x xs -> exists v, key x = Ok v) ->
  Py.sorted_by_key key xs = Ok (Py.sorted_key (key_value key) xs).
Proof.
  intros H. unfold Py.sorted_by_key. rewrite (decorate_ok xs H).
  cbn [bind]. f_equal. apply sorted_decorated.
Qed.

Lemma sorted_by_key_raises (xs : list string) :
  (exists e, Py.sorted_by_key key xs = Raise e) <->
  Exists (key_raises key) xs.
Proof.
  rewrite <- decorate_raises. unfold Py.sorted_by_key.
  destruct (Py.decorate key xs) as [d|e]; cbn [bind];
    split; intros [e' H]; try discriminate H; now exists e.
Qed.

Lemma sorted_by_key_inv (xs out : list string) :
  Py.sorted_by_key key xs = Ok out ->
  (forall x, In x xs -> exists v, key x = Ok v) /\
  out = Py.sorted_key (key_value key) xs.
Proof.
  intros H.
  assert (Hall : forall x, In x xs -> exists v, key x = Ok v).
  { unfold Py.sorted_by_key in H.
    destruct (Py.decorate key xs) as [d|] eqn:Ed; [|discriminate].
    now apply (decorate_ok_inv xs d). }
  split; [exact Hall|].
  rewrite (sorted_by_key_ok xs Hall) in H. congruence.
Qed.

(** Either every label has a key or the key raises on one. *)
Lemma keys_or_raise (xs : list string) :
  (forall x, In x xs -> exists v, key x = Ok v) \/
  Exists (key_raises key) xs.
Proof.
  induction xs as [|x xs [IH|IH]].
  - left. intros x [].
  - destruct (key x) as [v|e] eqn:E.
    + left. intros y [<-|Hy]; [now exists v | now apply IH].
    + right. left. now exists e.
  - right. now right.
Qed.

End SortedByKey.

(* ================================================================= *)
(** ** [convert_to_nexttrain] as a list of lines *)

Section Lines.

Variable sort_hour : string -> result Z.

Lemma emit_timetable_ok (lines : list string) (parsed : parsed_data) :
  sortable sort_hour (timetable parsed) ->
  emit_timetable sort_hour lines parsed =
  Ok (lines ++ timetable_block (key_value sort_hour) parsed).
Proof.
  intros H. unfold emit_timetable, timetable_block. cbv zeta.
  rewrite (sorted_by_key_ok sort_hour _ H). cbn [bind].
  rewrite (fold_left_append (hour_line (timetable parsed)));
    [|intros; apply emit_hour_line].
  now rewrite <- !app_assoc.
Qed.

Lemma emit_timetable_raises (lines : list string) (parsed : parsed_data) :
  (exists e, emit_timetable sort_hour lines parsed = Raise e) <->
  Exists (key_raises sort_hour) (Py.dict_keys (timetable parsed)).
Proof.
  rewrite <- sorted_by_key_raises. unfold emit_timetable. cbv zeta.
  destruct (Py.sorted_by_key sort_hour _) as [hours|e]; cbn [bind];
    split; intros [e' H]; try discriminate H; now exists e.
Qed.

Lemma emit_timetable_inv (lines out : list string) (parsed : parsed_data) :
  emit_timetable sort_hour lines parsed = Ok out ->
  sortable sort_hour (timetable parsed) /\
  out = lines ++ timetable_block (key_value sort_hour) parsed.
Proof.
  intros H.
  destruct (keys_or_raise sort_hour (Py.dict_keys (timetable parsed)))
    as [Hs|Hr].
  - split; [exact Hs|]. rewrite (emit_timetable_ok lines parsed Hs) in H.
    congruence.
  - apply (emit_timetable_raises lines) in Hr. destruct Hr as [e He].
    congruence.
Qed.




Variable dd : Py.dict (string * string).
Variable td : Py.dict (string * string * string).



End Lines.

(* ================================================================= *)
(** ** The keys of the hour labels *)

Lemma decimal_values_nonneg (cps : list N) :
  forall ds, Py.decimal_values cps = Some ds -> Forall (fun d => 0 <= d)%Z ds.
Proof.
  induction cps as [|cp cps IH]; cbn [Py.decimal_values]; intros ds H.
  - injection H as <-. constructor.
  - unfold Py.decimal_value in H.
    destruct (Py.range_start cp Py.decimal_ranges) as [start|];
      [|discriminate].
    destruct (Py.decimal_values cps) as [ds'|]; [|discriminate].
    injection H as <-. constructor; [apply N2Z.is_nonneg | now apply IH].
Qed.

Lemma digits_value_nonneg (ds : list Z) :
  Forall (fun d => 0 <= d)%Z ds ->
  forall acc, (0 <= acc)%Z ->
              (0 <= fold_left (fun acc d => 10 * acc + d) ds acc)%Z.
Proof.
  induction 1 as [|d ds Hd Hds IH]; intros acc Hacc; [exact Hacc|].
  cbn [fold_left]. apply IH. lia.
Qed.

Lemma int_nonneg (s : string) (v : Z) : Py.int s = Ok v -> (0 <= v)%Z.
Proof.
  unfold Py.int. destruct (Py.code_points s) as [|cp cps]; [discriminate|].
  destruct (Py.decimal_values (cp :: cps)) as [ds|] eqn:E; [|discriminate].
  destruct (Py.int_max_str_digits <? length ds)%nat; [discriminate|].
  intros [= <-]. apply digits_value_nonneg; [|lia].
  now apply (decimal_values_nonneg (cp :: cps)).
Qed.

Lemma keisei_sort_hour_other (h : string) :
  Py.isdigit h = false -> Keisei.sort_hour h = Ok 0%Z.
Proof. intros H. unfold Keisei.sort_hour. now rewrite H. Qed.



Lemma keisei_key_raises (h : string) :
  key_raises Keisei.sort_hour h <-> bad_label h.
Proof.
  unfold key_raises, bad_label, Keisei.sort_hour.
  destruct (Py.isdigit h); cbn [negb].
  - destruct (Py.int h) as [v|e]; cbn [bind].
    + split; [intros [e H]; destruct (v <=? 1)%Z; discriminate H|].
      intros [_ [e H]]. discriminate H.
    + split; [intros _; split; [reflexivity | now exists e]|].
      intros _. now exists e.
  - split; [intros [e H]; discriminate H | intros [H _]; discriminate H].
Qed.

Lemma oshiage_key_raises (h : string) :
  key_raises Oshiage.sort_hour h <-> bad_label h.
Proof.
  unfold key_raises, bad_label, Oshiage.sort_hour.
  destruct (Py.isdigit h).
  - split; [intros H; now split | intros [_ H]; exact H].
  - split; [intros [e H]; discriminate H | intros [H _]; discriminate H].
Qed.

Lemma bad_labels_raise (key : string -> result Z) (l : list string) :
  (forall h, key_raises key h <-> bad_label h) ->
  Exists (key_raises key) l <-> Exists bad_label l.
Proof.
  intros H. rewrite !Exists_exists.
  split; intros (h & Hin & Hh); exists h; (split; [assumption|]);
    now apply H.
Qed.














(* ================================================================= *)
(** ** The order of the hours *)






Example late_timetable_keisei :
  emit_timetable Keisei.sort_hour [] late_parsed =
  Ok [ ""; "[MON][TUE][WED][THU][FRI]"; "# 西馬込駅 押上方面(平日)";
       "3: oj55"; "23: oj10 oj40"; "0: oj15"; "1: oj02" ].
Proof. vm_compute. reflexivity. Qed.

Example late_timetable_oshiage :
  emit_timetable Oshiage.sort_hour [] late_parsed =
  Ok [ ""; "[MON][TUE][WED][THU][FRI]"; "# 西馬込駅 押上方面(平日)";
       "0: oj15"; "1: oj02"; "3: oj55"; "23: oj10 oj40" ].
Proof. vm_compute. reflexivity. Qed.

Example sort_hour_wide_digits : Keisei.sort_hour "２３" = Ok 23%Z.
Proof. vm_compute. reflexivity. Qed.

Example sort_hour_superscript : Keisei.sort_hour "²" = Raise ValueError.
Proof. vm_compute. reflexivity. Qed.

(* ================================================================= *)
(** ** The layout of the output *)

Lemma Exists_iff {X} (P Q : X -> Prop) (l : list X) :
  (forall x, P x <-> Q x) -> Exists P l <-> Exists Q l.
Proof.
  intros H. rewrite !Exists_exists.
  split; intros (x & Hin & Hx); exists x; (split; [assumption|]);
    now apply H.
Qed.




(* ================================================================= *)
(** ** The placeholder *)

Lemma oshiage_cell_times (time_cell : Bs4.PageElement) :
  Oshiage.cell_times time_cell =
  flat_map (fun wrap_time => option_list (Oshiage.block_trip wrap_time))
           (Bs4.find_all "div" (Some "wrapTime") time_cell).
Proof.
  unfold Oshiage.cell_times.
  assert (H : forall blocks times,
             fold_left Oshiage.append_block blocks times =
             times ++ flat_map (fun wrap_time =>
                                  option_list (Oshiage.block_trip wrap_time))
                               blocks).
  { induction blocks as [|b blocks IH]; simpl; intros times.
    - now rewrite app_nil_r.
    - rewrite IH. unfold Oshiage.append_block.
      destruct (Oshiage.block_trip b); simpl;
        [now rewrite <- app_assoc | reflexivity]. }
  now rewrite H.
Qed.

Lemma oshiage_process_row (timetable : timetable_t)
      (row : Bs4.PageElement) :
  Oshiage.process_row timetable row =
  match oshiage_row row with
  | Some (k, v) => Py.dict_set k v timetable
  | None => timetable
  end.
Proof.
  unfold Oshiage.process_row, oshiage_row.
  destruct (Bs4.find "th" None row); [|reflexivity].
  destruct (Bs4.find "td" None row) as [time_cell|]; [|reflexivity].
  rewrite oshiage_cell_times. now destruct (flat_map _ _).
Qed.

Lemma oshiage_extract_fold (soup : Bs4.PageElement) :
  Oshiage.extract_timetable soup =
  fold_left Oshiage.process_row (oshiage_rows soup) [].
Proof.
  unfold Oshiage.extract_timetable, oshiage_rows.
  destruct (Bs4.find "table" _ soup) as [table|]; [|reflexivity].
  now destruct (Bs4.find "tbody" None table).
Qed.

Lemma oshiage_placeholder_trip (wrap_time time_elem : Bs4.PageElement) :
  Bs4.find "span" (Some "time") wrap_time = Some time_elem ->
  Py.strip (Bs4.text time_elem) = "－" ->
  exists t, Oshiage.block_trip wrap_time = Some t /\ minute t = "－".
Proof.
  intros Hfind Htext. unfold Oshiage.block_trip. rewrite Hfind. cbv zeta.
  rewrite Htext. eexists. split; reflexivity.
Qed.

Lemma oshiage_placeholder_in_cell
      (time_cell wrap_time time_elem : Bs4.PageElement) :
  In wrap_time (Bs4.find_all "div" (Some "wrapTime") time_cell) ->
  Bs4.find "span" (Some "time") wrap_time = Some time_elem ->
  Py.strip (Bs4.text time_elem) = "－" ->
  exists t, In t (Oshiage.cell_times time_cell) /\ minute t = "－".
Proof.
  intros Hin Hfind Htext.
  destruct (oshiage_placeholder_trip _ _ Hfind Htext) as (t & Ht & Hm).
  exists t. split; [|exact Hm].
  rewrite oshiage_cell_times. apply in_flat_map.
  exists wrap_time. split; [exact Hin|]. rewrite Ht. now left.
Qed.

(** C4.  A block whose time text is the placeholder is not appended by
    timetable_converter.py nor by the Nishimagome script, and no trip of
    the timetables they build carries the placeholder.  The
    Oshiage-direction script appends it as a trip whose minute is the
    placeholder: the trip is in the list of its cell, the row registers
    that list under its hour, the timetable holds under every hour the
    list of the last row of that hour, and the line of the hour carries
    the entry. *)
Theorem C4_placeholder_filter :
  (forall wrap_time time_elem times,
     Bs4.find "span" (Some "time") wrap_time = Some time_elem ->
     Py.strip (Bs4.text time_elem) = "－" ->
     Keisei.block_trip wrap_time = None /\
     Keisei.append_block times wrap_time = times) /\
  (forall soup,
     all_values no_placeholder (Keisei.extract_timetable soup)) /\
  (forall re_legend re_spans re_time block times,
     re_time (snd block) = Some "－" ->
     Nishimagome.block_trip re_legend re_spans re_time block = None /\
     Nishimagome.append_block re_legend re_spans re_time times block
     = times) /\
  (forall re_tbody re_rows re_train_blocks re_legend re_spans re_time html,
     all_values no_placeholder
       (Nishimagome.extract_timetable re_tbody re_rows re_train_blocks
                                      re_legend re_spans re_time html)) /\
  (forall wrap_time time_elem times,
     Bs4.find "span" (Some "time") wrap_time = Some time_elem ->
     Py.strip (Bs4.text time_elem) = "－" ->
     exists t,
       Oshiage.block_trip wrap_time = Some t /\
       minute t = "－" /\
       Oshiage.append_block times wrap_time = times ++ [t]) /\
  (forall time_cell wrap_time time_elem,
     In wrap_time (Bs4.find_all "div" (Some "wrapTime") time_cell) ->
     Bs4.find "span" (Some "time") wrap_time = Some time_elem ->
     Py.strip (Bs4.text time_elem) = "－" ->
     exists t, In t (Oshiage.cell_times time_cell) /\ minute t = "－") /\
  (forall timetable row hour_elem time_cell wrap_time time_elem,
     Bs4.find "th" None row = Some hour_elem ->
     Bs4.find "td" None row = Some time_cell ->
     In wrap_time (Bs4.find_all "div" (Some "wrapTime") time_cell) ->
     Bs4.find "span" (Some "time") wrap_time = Some time_elem ->
     Py.strip (Bs4.text time_elem) = "－" ->
     exists t,
       Py.dict_get (Oshiage.process_row timetable row)
                   (Py.strip (Bs4.text hour_elem))
       = Some (Oshiage.cell_times time_cell) /\
       In t (Oshiage.cell_times time_cell) /\ minute t = "－") /\
  (forall soup h,
     Py.dict_get (Oshiage.extract_timetable soup) h =
     last_binding h (map oshiage_row (oshiage_rows soup))) /\
  Keisei.extract_timetable
    (Examples.one_row_page [Examples.placeholder_block]) = [] /\
  Oshiage.extract_timetable
    (Examples.one_row_page [Examples.placeholder_block]) =
  [("5", [mk_trip "－" "n" "d" ["押"]])] /\
  Oshiage.convert_to_nexttrain
    [mk_parsed (mk_station "" "" "")
       (Oshiage.extract_timetable
          (Examples.one_row_page [Examples.placeholder_block]))
       (mk_legends [] [] [])] =
  Ok (Py.join newline
        (map destination_line Oshiage.destination_definitions
         ++ map train_type_line Oshiage.train_type_definitions
         ++ [""; "[SAT][SUN][HOL]"; "# 駅 (土休日)"; "5: nd－"])).
Proof.
  repeat match goal with |- _ /\ _ => split end.
  - intros wrap_time time_elem times Hfind Htext.
    unfold Keisei.append_block, Keisei.block_trip.
    rewrite Hfind. cbv zeta. rewrite Htext. now rewrite String.eqb_refl.
  - intros soup h times Hin.
    apply (keisei_timetable_invariant soup h times Hin).
  - intros re_legend re_spans re_time block times Htime.
    unfold Nishimagome.append_block, Nishimagome.block_trip.
    rewrite Htime. now rewrite String.eqb_refl.
  - intros re_tbody re_rows re_train_blocks re_legend re_spans re_time html
           h times Hin.
    apply (nishimagome_timetable_invariant _ _ _ _ _ _ _ h times Hin).
  - intros wrap_time time_elem times Hfind Htext.
    unfold Oshiage.append_block, Oshiage.block_trip.
    rewrite Hfind. cbv zeta. rewrite Htext.
    eexists. split; [reflexivity|]. split; reflexivity.
  - exact oshiage_placeholder_in_cell.
  - intros timetable row hour_elem time_cell wrap_time time_elem
           Hth Htd Hin Hfind Htext.
    destruct (oshiage_placeholder_in_cell _ _ _ Hin Hfind Htext)
      as (t & Ht & Hm).
    exists t. split; [|split; assumption].
    unfold Oshiage.process_row. rewrite Hth, Htd. cbv zeta.
    destruct (Oshiage.cell_times time_cell) as [|t0 ts] eqn:E;
      [destruct Ht|].
    rewrite dict_get_set. now rewrite String.eqb_refl.
  - intros soup h. rewrite oshiage_extract_fold.
    rewrite (dict_loop_get oshiage_row Oshiage.process_row
                           oshiage_process_row).
    now destruct (last_binding h _).
  - reflexivity.
  - reflexivity.
  - vm_compute. reflexivity.
Qed.

Lemma C4_placeholder_filter_witness :
  Keisei.block_trip Examples.placeholder_block = None /\
  (exists t,
     Oshiage.block_trip Examples.placeholder_block = Some t /\
     minute t = "－" /\
     Oshiage.append_block [] Examples.placeholder_block = [] ++ [t]) /\
  Nishimagome.block_trip Examples.no_match Examples.no_spans
    Examples.some_match ("wrapTime color-red", "－") = None /\
  (exists t,
     In t (Oshiage.cell_times
             (Bs4.Tag "td" [] [Examples.placeholder_block])) /\
     minute t = "－").
Proof.
  destruct C4_placeholder_filter
    as (Hk & _ & Hn & _ & Ho & Hc & _).
  split; [|split; [|split]].
  - apply (Hk Examples.placeholder_block
              (Bs4.Tag "span" ["time"] [Bs4.NavigableString "－"]) []);
      reflexivity.
  - apply (Ho Examples.placeholder_block
              (Bs4.Tag "span" ["time"] [Bs4.NavigableString "－"]) []);
      reflexivity.
  - apply (Hn Examples.no_match Examples.no_spans Examples.some_match
              ("wrapTime color-red", "－") []).
    reflexivity.
  - apply (Hc (Bs4.Tag "td" [] [Examples.placeholder_block])
              Examples.placeholder_block
              (Bs4.Tag "span" ["time"] [Bs4.NavigableString "－"])).
    + left. reflexivity.
    + reflexivity.
    + reflexivity.
Defined.

(* ================================================================= *)
(** ** One line per registered hour *)

Lemma emit_timetable_length (sort_hour : string -> result Z)
      (lines out : list string) (parsed : parsed_data) :
  all_values (fun times => times <> []) (timetable parsed) ->
  emit_timetable sort_hour lines parsed = Ok out ->
  length out =
  length lines + 3 + length (Py.dict_keys (timetable parsed)).
Proof.
  intros Hall H. apply emit_timetable_inv in H. destruct H as [_ ->].
  unfold timetable_block.
  rewrite !length_app, hour_lines_length; try assumption.
  - rewrite <- (Permutation_length (sorted_key_perm _ _)). simpl. lia.
  - intros h Hh.
    now apply (Permutation_in _
                 (Permutation_sym (sorted_key_perm _ _))) in Hh.
Qed.

(** X8.  For a timetable extracted by any of the three scripts, when the
    serializer returns it has appended the blank line, the day header,
    the title and exactly one line per hour label of the timetable: no
    registered hour is dropped and none is written twice.  It raises
    instead exactly when an hour label of the timetable is accepted by
    [isdigit] and refused by [int]. *)
Theorem X8_one_line_per_hour :
  (forall soup st lg lines out,
     emit_timetable Keisei.sort_hour lines
       (mk_parsed st (Keisei.extract_timetable soup) lg) = Ok out ->
     length out =
     length lines + 3
     + length (Py.dict_keys (Keisei.extract_timetable soup))) /\
  (forall soup st lg lines,
     (exists e, emit_timetable Keisei.sort_hour lines
                  (mk_parsed st (Keisei.extract_timetable soup) lg)
                = Raise e) <->
     Exists bad_label (Py.dict_keys (Keisei.extract_timetable soup))) /\
  (forall re_tbody re_rows re_train_blocks re_legend re_spans re_time html
          st lg lines out,
     emit_timetable Nishimagome.sort_hour lines
       (mk_parsed st
          (Nishimagome.extract_timetable re_tbody re_rows
             re_train_blocks re_legend re_spans re_time html) lg) = Ok out ->
     length out =
     length lines + 3
     + length (Py.dict_keys
                 (Nishimagome.extract_timetable re_tbody re_rows
                    re_train_blocks re_legend re_spans re_time html))) /\
  (forall soup st lg lines out,
     emit_timetable Oshiage.sort_hour lines
       (mk_parsed st (Oshiage.extract_timetable soup) lg) = Ok out ->
     length out =
     length lines + 3
     + length (Py.dict_keys (Oshiage.extract_timetable soup))) /\
  (forall soup st lg lines,
     (exists e, emit_timetable Oshiage.sort_hour lines
                  (mk_parsed st (Oshiage.extract_timetable soup) lg)
                = Raise e) <->
     Exists bad_label (Py.dict_keys (Oshiage.extract_timetable soup))).
Proof.
  repeat match goal with |- _ /\ _ => split end.
  - intros soup st lg lines out.
    apply emit_timetable_length. simpl. intros h times Hin.
    apply (keisei_timetable_invariant soup h times Hin).
  - intros soup st lg lines. rewrite emit_timetable_raises.
    apply Exists_iff, keisei_key_raises.
  - intros re_tbody re_rows re_train_blocks re_legend re_spans re_time html
           st lg lines out.
    apply emit_timetable_length. simpl. intros h times Hin.
    apply (nishimagome_timetable_invariant _ _ _ _ _ _ _ h times Hin).
  - intros soup st lg lines out.
    apply emit_timetable_length. simpl. apply oshiage_timetable_invariant.
  - intros soup st lg lines. rewrite emit_timetable_raises.
    apply Exists_iff, oshiage_key_raises.
Qed.

Lemma X8_one_line_per_hour_witness :
  length [ ""; "[SAT][SUN][HOL]"; "# 駅 (土休日)"; "5: qd07" ] =
  length (@nil string) + 3
  + length (Py.dict_keys
              (Keisei.extract_timetable
                 (Examples.one_row_page
                    [Examples.wrap_time "color-red" ["押"] "07"]))).
Proof.
  apply (proj1 X8_one_line_per_hour
           (Examples.one_row_page
              [Examples.wrap_time "color-red" ["押"] "07"])
           (mk_station "" "" "") (mk_legends [] [] []) []).
  vm_compute. reflexivity.
Defined.

(* ================================================================= *)
(** ** Numeric and other hour labels *)

Lemma keisei_sort_hour_at_least_two (h : string) (v : Z) :
  Py.isdigit h = true -> Keisei.sort_hour h = Ok v -> (2 <= v)%Z.
Proof.
  intros H Hv. unfold Keisei.sort_hour in Hv. rewrite H in Hv.
  cbn [negb] in Hv. destruct (Py.int h) as [n|] eqn:E; [|discriminate].
  apply int_nonneg in E. cbn [bind] in Hv.
  destruct (n <=? 1)%Z eqn:En;
    [apply Z.leb_le in En | apply Z.leb_gt in En];
    injection Hv as <-; lia.
Qed.

(** A list of labels with keys, sorted by the key of
    timetable_converter.py, is its non-numeric labels followed by its
    numeric labels. *)
Lemma keisei_sorted_split (l : list string) :
  StronglySorted (key_le (key_value Keisei.sort_hour)) l ->
  (forall x, In x l -> exists v, Keisei.sort_hour x = Ok v) ->
  l = filter (fun h => negb (Py.isdigit h)) l ++ filter Py.isdigit l.
Proof.
  induction 1 as [|a l Hl IH Ha]; intros Hk; [reflexivity|].
  assert (Hk' : forall x, In x l -> exists v, Keisei.sort_hour x = Ok v)
    by (intros x Hx; apply Hk; now right).
  cbn [filter]. destruct (Py.isdigit a) eqn:E; cbn [negb].
  - assert (Hall : forall x, In x l -> Py.isdigit x = true).
    { intros x Hx. rewrite Forall_forall in Ha. specialize (Ha x Hx).
      destruct (Py.isdigit x) eqn:Ex; [reflexivity|].
      destruct (Hk a (or_introl eq_refl)) as [va Hva].
      pose proof (keisei_sort_hour_at_least_two a va E Hva) as Hge.
      unfold key_le, key_value in Ha.
      rewrite Hva, (keisei_sort_hour_other x Ex) in Ha. lia. }
    assert (Hnone : filter (fun h => negb (Py.isdigit h)) l = []).
    { clear -Hall. induction l as [|x l IH]; [reflexivity|].
      cbn [filter]. rewrite (Hall x (or_introl eq_refl)). cbn [negb].
      apply IH. intros y Hy. apply Hall. now right. }
    assert (Hsame : filter Py.isdigit l = l).
    { clear -Hall. induction l as [|x l IH]; [reflexivity|].
      cbn [filter]. rewrite (Hall x (or_introl eq_refl)). f_equal.
      apply IH. intros y Hy. apply Hall. now right. }
    now rewrite Hnone, Hsame.
  - cbn [app]. f_equal. exact (IH Hk').
Qed.

(** X10.  With the key of timetable_converter.py (and of the Nishimagome
    script, which has the same function) a numeric hour label has, when
    [int] reads it, a key of at least 2 and any other label the key 0, so
    the sorted labels are always the non-numeric ones followed by the
    numeric ones.  With the key of the Oshiage-direction script a numeric
    label may share the key 0 of the other labels: its key is only known
    not to be negative. *)
Theorem X10_non_numeric_hours_first :
  (forall h v, Py.isdigit h = true -> Keisei.sort_hour h = Ok v ->
               (2 <= v)%Z) /\
  (forall h, Py.isdigit h = false -> Keisei.sort_hour h = Ok 0%Z) /\
  (forall keys sorted,
     Py.sorted_by_key Keisei.sort_hour keys = Ok sorted ->
     sorted = filter (fun h => negb (Py.isdigit h)) sorted
              ++ filter Py.isdigit sorted) /\
  (forall a b vb, Py.isdigit a = false -> Oshiage.sort_hour b = Ok vb ->
                  Oshiage.sort_hour a = Ok 0%Z /\ (0 <= vb)%Z) /\
  Oshiage.sort_hour "0" = Oshiage.sort_hour "始発".
Proof.
  split; [exact keisei_sort_hour_at_least_two|].
  split; [exact keisei_sort_hour_other|]. split; [|split].
  - intros keys sorted H. apply sorted_by_key_inv in H.
    destruct H as [Hk ->]. apply keisei_sorted_split.
    + apply sorted_key_sorted.
    + intros x Hx. apply Hk.
      now apply (Permutation_in _
                   (Permutation_sym (sorted_key_perm _ _))) in Hx.
  - intros a b vb Ha Hb. unfold Oshiage.sort_hour in *. rewrite Ha.
    split; [reflexivity|].
    destruct (Py.isdigit b); [now apply (int_nonneg b) | injection Hb; lia].
  - vm_compute. reflexivity.
Qed.

Lemma X10_non_numeric_hours_first_witness :
  (2 <= 24)%Z /\
  Keisei.sort_hour "始発" = Ok 0%Z /\
  ["始発"; "５"; "0"] =
  filter (fun h => negb (Py.isdigit h)) ["始発"; "５"; "0"]
  ++ filter Py.isdigit ["始発"; "５"; "0"].
Proof.
  destruct X10_non_numeric_hours_first as (H1 & H2 & H3 & _).
  split; [apply (H1 "00"); vm_compute; reflexivity|].
  split; [apply H2; vm_compute; reflexivity|].
  apply (H3 ["0"; "始発"; "５"]). vm_compute. reflexivity.
Defined.

Example mixed_labels_keisei :
  Py.sorted_by_key Keisei.sort_hour ["0"; "始発"; "２３"; "終"; "5"] =
  Ok ["始発"; "終"; "5"; "２３"; "0"].
Proof. vm_compute. reflexivity. Qed.

Example mixed_labels_oshiage :
  Py.sorted_by_key Oshiage.sort_hour ["0"; "始発"; "２３"; "終"; "5"] =
  Ok ["0"; "始発"; "終"; "5"; "２３"].
Proof. vm_compute. reflexivity. Qed.

Example mixed_labels_raise :
  Py.sorted_by_key Keisei.sort_hour ["0"; "①"; "23"] = Raise ValueError.
Proof. vm_compute. reflexivity. Qed.

(* ================================================================= *)
(** ** The run over several pages *)



Lemma analysis_key_raises (h : string) :
  key_raises analysis_key h <-> bad_label h.
Proof. exact (oshiage_key_raises h). Qed.

Lemma print_analysis_raises (p : parsed_data) :
  (exists e, print_analysis p = Raise e) <->
  Exists bad_label (Py.dict_keys (timetable p)).
Proof.
  rewrite <- (Exists_iff _ _ _ analysis_key_raises).
  rewrite <- sorted_by_key_raises. unfold print_analysis.
  destruct (Py.sorted_by_key analysis_key _) as [l|e]; cbn [bind];
    split; intros [e' H]; try discriminate H; now exists e.
Qed.

Lemma print_analysis_ok (p : parsed_data) :
  ~ Exists bad_label (Py.dict_keys (timetable p)) ->
  print_analysis p = Ok tt.
Proof.
  intros H. destruct (print_analysis p) as [[]|e] eqn:E; [reflexivity|].
  elim H. apply print_analysis_raises. now exists e.
Qed.






Example run_stops_on_missing_anchor :
  Keisei.convert_pages
    [Examples.page_with_tabs "平日"; Examples.page_without_anchor]
  = Raise AttributeError.
Proof. vm_compute. reflexivity. Qed.

Example run_stops_on_superscript_hour :
  Keisei.convert_pages
    [Bs4.Tag "[document]" []
       [ Bs4.Tag "table" ["tt-table"]
           [ Bs4.Tag "tbody" []
               [ Bs4.Tag "tr" []
                   [ Bs4.Tag "th" [] [Bs4.NavigableString "²"];
                     Bs4.Tag "td" []
                       [Examples.wrap_time "color-red" ["押"] "07"] ] ] ] ]]
  = Raise ValueError.
Proof. vm_compute. reflexivity. Qed.
